(** * onnx_chainer.export: a shallow embedding of the exporter

    The development follows [src/onnx_chainer/export.py]:
    [convert_parameter], [create_node], the capture hook
    [ONNXExport.backward_postprocess] and [export].

    What the source takes from its collaborators is taken here as data:
    - the objects of the framework ([Variable], [VariableNode], functions)
      carry the number Python's [id] gives them;
    - the converter module [onnx_chainer.functions], the checker of the
      onnx package and the constructor [chainer.Variable] are fields of
      an environment record [Env];
    - [y.backward()] is given by the list of functions on which the
      framework calls the hook, in call order. *)

From Stdlib Require Import ZArith String List Bool Lia.
From Stdlib Require Decimal DecimalString DecimalZ.
Import ListNotations.

Local Open Scope string_scope.
Local Open Scope list_scope.
Local Open Scope Z_scope.

(* ================================================================== *)
(** ** Python values of the framework *)
(* ================================================================== *)

(** [str(n)] for a Python integer. *)
Definition str (n : Z) : string :=
  DecimalString.NilZero.string_of_int (Z.to_int n).

(** numpy element types that occur as keys of [NP_TYPE_TO_TENSOR_TYPE]. *)
Inductive dtype : Type :=
| float16 | float32 | float64
| int8 | int16 | int32 | int64
| uint8 | uint16 | uint32 | uint64
| bool_.

(** [onnx.mapping.NP_TYPE_TO_TENSOR_TYPE]: the numbers are those of the
    enumeration [TensorProto.DataType]. *)
Definition NP_TYPE_TO_TENSOR_TYPE (d : dtype) : Z :=
  match d with
  | float32 => 1 | uint8 => 2 | int8 => 3 | uint16 => 4 | int16 => 5
  | int32 => 6 | int64 => 7 | bool_ => 9 | float16 => 10 | float64 => 11
  | uint32 => 12 | uint64 => 13
  end.

(** A [numpy.ndarray]: its identity, shape, element type and its
    elements in row-major order (kept as raw numbers). *)
Record ndarray : Type := mk_ndarray {
  a_id : Z;
  a_shape : list Z;
  a_dtype : dtype;
  a_data : list Z
}.

(** A [chainer.Variable] (the capitalised name is a keyword here);
    [v_is_parameter] is [isinstance(v, chainer.Parameter)]. *)
Record variable : Type := mk_variable {
  v_id : Z;
  v_is_parameter : bool;
  v_array : ndarray
}.

Definition v_shape (v : variable) : list Z := a_shape (v_array v).
Definition v_dtype (v : variable) : dtype := a_dtype (v_array v).

(** A [chainer.variable.VariableNode].  [get_variable_or_none] is the
    weak reference of the node to its [Variable]: [None] once the
    [Variable] has been collected. *)
Record VariableNode : Type := mk_VariableNode {
  n_id : Z;
  get_variable_or_none : option variable;
  n_shape : list Z;
  n_dtype : dtype
}.

(** A function of the computational graph: its class name, its input
    nodes and the nodes its [outputs] weak references give. *)
Record Function : Type := mk_Function {
  class_name : string;
  inputs : list VariableNode;
  outputs : list VariableNode
}.

(** What the hook receives: a [FunctionNode], or a [FunctionAdapter]
    around an old-style function. *)
Inductive pyfunction : Type :=
| FunctionNode (f : Function)
| FunctionAdapter (function : Function).

(** The objects a session names: a [VariableNode] or a [Variable]. *)
Inductive tensor : Type :=
| TNode (n : VariableNode)
| TVar (v : variable).

Definition id_of (t : tensor) : Z :=
  match t with TNode n => n_id n | TVar v => v_id v end.

Definition shape_of (t : tensor) : list Z :=
  match t with TNode n => n_shape n | TVar v => v_shape v end.

Definition dtype_of (t : tensor) : dtype :=
  match t with TNode n => n_dtype n | TVar v => v_dtype v end.

Definition is_Parameter (t : tensor) : bool :=
  match t with TNode _ => false | TVar v => v_is_parameter v end.

(** What [convert_parameter] accepts: a [Parameter] or [Variable], or a
    bare array. *)
Inductive pyparam : Type :=
| ParamVar (v : variable)
| ParamArray (a : ndarray).

Definition param_id (p : pyparam) : Z :=
  match p with ParamVar v => v_id v | ParamArray a => a_id a end.

Definition param_shape_of (p : pyparam) : list Z :=
  match p with ParamVar v => v_shape v | ParamArray a => a_shape a end.

(* ================================================================== *)
(** ** Messages of the onnx package *)
(* ================================================================== *)

Inductive attr_value : Type :=
| AttrInt (i : Z)
| AttrInts (l : list Z)
| AttrString (s : string).

Record NodeProto : Type := make_node {
  op_type : string;
  input : list string;
  output : list string;
  attribute : list (string * attr_value)
}.

Record TensorProto : Type := mk_TensorProto {
  t_name : string;
  t_dims : list Z;
  t_data_type : Z;
  t_raw_data : list Z
}.

Record ValueInfoProto : Type := make_tensor_value_info {
  vi_name : string;
  vi_elem_type : Z;
  vi_shape : list Z
}.

Record GraphProto : Type := mk_GraphProto {
  g_node : list NodeProto;
  g_name : string;
  g_input : list ValueInfoProto;
  g_output : list ValueInfoProto;
  g_initializer : list TensorProto
}.

Definition make_graph (nodes : list NodeProto) (name : string)
    (ins outs : list ValueInfoProto) (initializer : list TensorProto) :=
  mk_GraphProto nodes name ins outs initializer.

Record ModelProto : Type := mk_ModelProto {
  m_graph : GraphProto;
  producer_name : string;
  producer_version : string;
  ir_version : Z
}.

Definition attr_value_eq_dec (x y : attr_value) : {x = y} + {x <> y}.
Proof.
  decide equality;
    try apply Z.eq_dec; try apply string_dec; apply (list_eq_dec Z.eq_dec).
Defined.

(** Equality of node messages, as [==] on protobuf messages compares
    them: field by field. *)
Definition NodeProto_eq_dec (x y : NodeProto) : {x = y} + {x <> y}.
Proof.
  decide equality.
  - apply list_eq_dec. intros [k1 v1] [k2 v2].
    destruct (string_dec k1 k2) as [-> | ?]; [ | right; congruence ].
    destruct (attr_value_eq_dec v1 v2) as [-> | ?]; [ left | right ]; congruence.
  - apply (list_eq_dec string_dec).
  - apply (list_eq_dec string_dec).
  - apply string_dec.
Defined.

(* ================================================================== *)
(** ** Exceptions and results *)
(* ================================================================== *)

Inductive exn : Type :=
| ImportError (msg : string)
| ValueError (msg : string)
| AttributeError (msg : string)
| ForeignError (msg : string).
(* [ForeignError]: raised inside a collaborator (the framework, a
   converter, the onnx checker). *)

Inductive result (A : Type) : Type :=
| Ok (a : A)
| Raise (e : exn).
Arguments Ok {A} a.
Arguments Raise {A} e.

Definition rbind {A B} (r : result A) (k : A -> result B) : result B :=
  match r with Ok a => k a | Raise e => Raise e end.

Declare Scope result_scope.
Delimit Scope result_scope with result.
Notation "x <- c ;; k" := (rbind c (fun x => k))
  (at level 61, c at next level, right associativity) : result_scope.
Notation "' pat <- c ;; k" := (rbind c (fun x => match x with pat => k end))
  (at level 61, pat pattern, c at next level, right associativity) : result_scope.

(** A Python [dict] keeps its keys in insertion order: [d[k] = v]
    overwrites the value of a present key in place and appends an
    absent one. *)
Fixpoint dict_set {V} (k : string) (v : V) (d : list (string * V)) :
    list (string * V) :=
  match d with
  | [] => [(k, v)]
  | (k', v') :: d' =>
      if String.eqb k k' then (k, v) :: d' else (k', v') :: dict_set k v d'
  end.

Definition dict_mem {V} (k : string) (d : list (string * V)) : bool :=
  existsb (fun kv => String.eqb k (fst kv)) d.

Definition dict_values {V} (d : list (string * V)) : list V := map snd d.
Definition dict_keys {V} (d : list (string * V)) : list string := map fst d.

(* ================================================================== *)
(** ** The collaborators *)
(* ================================================================== *)

(** A converter of [onnx_chainer.functions]: called with the function,
    the input names, the output names and the list of additional
    parameters; it returns its nodes, and the list of additional
    parameters as it has left it (the list is passed by reference). *)
Definition converter : Type :=
  Function -> list string -> list string -> list pyparam ->
  result (list NodeProto * list pyparam).

(** Values given as [args]. *)
#[warnings="-register-all"]
Inductive pyvalue : Type :=
| PyList (l : list pyvalue)
| PyTuple (l : list pyvalue)
| PyDict (d : list (string * pyvalue))
| PyArray (a : ndarray)
| PyVar (v : variable)
| PyNone.

(** What a model returns. *)
Inductive pyoutputs : Type :=
| OutList (l : list variable)
| OutTuple (l : list variable)
| OutVariable (v : variable)
| OutDict (d : list (string * variable)).

Record Env : Type := mk_Env {
  (* [_available]: the import of the onnx package succeeded *)
  onnx_available : bool;
  (* [getattr(functions, name)], [None] where [hasattr] is false *)
  functions_attr : string -> option converter;
  (* [checker.check_node], [check_graph], [check_model]: the exception
     they raise, if any *)
  check_node : NodeProto -> option exn;
  check_graph : GraphProto -> option exn;
  check_model : ModelProto -> option exn;
  (* [chainer.Variable(arg)] *)
  Variable_new : pyvalue -> result variable;
  (* the functions [y.backward()] calls the hook on, in call order *)
  backward : variable -> list pyfunction;
  chainer_version : string;
  IR_VERSION : Z
}.

(* ================================================================== *)
(** ** convert_parameter, create_node *)
(* ================================================================== *)

(** [array[None]] on a rank-0 array: one more axis, the same element. *)
Definition expand_scalar (a : ndarray) : ndarray :=
  mk_ndarray (a_id a) [1] (a_dtype a) (a_data a).

(** [numpy_helper.from_array(array, name)] *)
Definition from_array (a : ndarray) (name : string) : TensorProto :=
  mk_TensorProto name (a_shape a) (NP_TYPE_TO_TENSOR_TYPE (a_dtype a))
    (a_data a).

Definition shape_is_empty (s : list Z) : bool :=
  match s with [] => true | _ => false end.

Definition convert_parameter (parameter : pyparam) : TensorProto :=
  let array :=
    match parameter with
    | ParamVar v => v_array v
    | ParamArray a => a
    end in
  let array := if shape_is_empty (a_shape array) then expand_scalar array
               else array in
  from_array array (str (param_id parameter)).

Fixpoint check_nodes (env : Env) (nodes : list NodeProto) : result unit :=
  match nodes with
  | [] => Ok tt
  | node :: rest =>
      match check_node env node with
      | Some e => Raise e
      | None => check_nodes env rest
      end
  end.

Definition create_node (env : Env) (func_name : string) (cand : Function)
    (input_names output_names : list string) (parameters : list pyparam) :
    result (list NodeProto * list pyparam) :=
  let converter_name := ("convert_" ++ func_name)%string in
  match functions_attr env converter_name with
  | Some converter =>
      ('(nodes, parameters') <- converter cand input_names output_names
                                  parameters ;;
       _ <- check_nodes env nodes ;;
       Ok (nodes, parameters'))%result
  | None => Raise (ValueError (func_name ++ " is not supported.")%string)
  end.

(* ================================================================== *)
(** ** The capture hook *)
(* ================================================================== *)

Record ONNXExport : Type := mk_ONNXExport {
  graph : list NodeProto;
  additional_parameters : list pyparam;
  network_inputs : list (string * tensor)
}.

(** [ONNXExport.__init__] *)
Definition ONNXExport_init : ONNXExport := mk_ONNXExport [] [] [].

(** One turn of the loop over [function.inputs]: the name appended to
    [input_names] and the dictionary of network inputs afterwards. *)
Definition visit_input (net : list (string * tensor)) (i : VariableNode) :
    string * list (string * tensor) :=
  match get_variable_or_none i with
  | None =>
      (str (n_id i),
       if dict_mem (str (n_id i)) net then net
       else dict_set (str (n_id i)) (TNode i) net)
  | Some var =>
      if v_is_parameter var then (str (v_id var), net)
      else (str (v_id var), dict_set (str (v_id var)) (TVar var) net)
  end.

Fixpoint visit_inputs (net : list (string * tensor)) (ins : list VariableNode) :
    list string * list (string * tensor) :=
  match ins with
  | [] => ([], net)
  | i :: rest =>
      let '(name, net1) := visit_input net i in
      let '(names, net2) := visit_inputs net1 rest in
      (name :: names, net2)
  end.

(** [for node in nodes: if node not in self.graph: self.graph.append(node)] *)
Fixpoint append_new (g : list NodeProto) (nodes : list NodeProto) :
    list NodeProto :=
  match nodes with
  | [] => g
  | node :: rest =>
      if in_dec NodeProto_eq_dec node g then append_new g rest
      else append_new (g ++ [node]) rest
  end.

Definition unwrap (function : pyfunction) : Function :=
  match function with
  | FunctionAdapter f => f
  | FunctionNode f => f
  end.

Definition output_names_of (function : Function) : list string :=
  map (fun o => str (n_id o)) (outputs function).

Definition backward_postprocess (env : Env) (self : ONNXExport)
    (function : pyfunction) : result ONNXExport :=
  let function := unwrap function in
  let func_name := class_name function in
  let '(input_names, net) :=
    visit_inputs (network_inputs self) (inputs function) in
  let output_names := output_names_of function in
  ('(nodes, parameters) <- create_node env func_name function input_names
                             output_names (additional_parameters self) ;;
   Ok (mk_ONNXExport (append_new (graph self) nodes) parameters net))%result.

(** The hook over the functions of one backward pass. *)
Fixpoint run_hook (env : Env) (self : ONNXExport) (fs : list pyfunction) :
    result ONNXExport :=
  match fs with
  | [] => Ok self
  | f :: rest =>
      (self' <- backward_postprocess env self f ;; run_hook env self' rest)%result
  end.

(* ================================================================== *)
(** ** The state outside the session, and the export monad *)
(* ================================================================== *)

(** The model object: its parameters in the order of [model.params()],
    the device its arrays are on, and what calling it returns. *)
Record Chain : Type := mk_Chain {
  params : list variable;
  on_gpu : bool;
  call : list pyvalue -> result pyoutputs;
  call_kw : list (string * pyvalue) -> result pyoutputs
}.

(** [model.to_cpu()] *)
Definition to_cpu (m : Chain) : Chain :=
  mk_Chain (params m) false (call m) (call_kw m).

(** What an export does to the world besides its own session object. *)
Inductive effect : Type :=
| EvForward (args : list pyvalue)
| EvForwardKw (args : list (string * pyvalue))
| EvSetGrad (y : variable)
| EvBackward (y : variable)
| EvWriteBinary (path : string) (m : ModelProto)
| EvWriteText (path : string) (m : ModelProto)
| EvStreamWrite (fp : Z) (m : ModelProto).

Record World : Type := mk_World {
  enable_backprop : bool;          (* chainer.config.enable_backprop *)
  model : Chain;                   (* the object [model] refers to *)
  trace : list effect              (* effects so far, oldest first *)
}.

Definition M (A : Type) : Type := World -> result A * World.

Definition ret {A} (a : A) : M A := fun w => (Ok a, w).
Definition raise {A} (e : exn) : M A := fun w => (Raise e, w).
Definition lift {A} (r : result A) : M A := fun w => (r, w).

Definition bind {A B} (c : M A) (k : A -> M B) : M B :=
  fun w =>
    match c w with
    | (Ok a, w1) => k a w1
    | (Raise e, w1) => (Raise e, w1)
    end.

Declare Scope export_scope.
Delimit Scope export_scope with export.
Notation "x <- c ;; k" := (bind c (fun x => k))
  (at level 61, c at next level, right associativity) : export_scope.
Notation "c1 ;;; c2" := (bind c1 (fun _ => c2))
  (at level 61, right associativity) : export_scope.

Definition emit (e : effect) : M unit :=
  fun w => (Ok tt, mk_World (enable_backprop w) (model w) (trace w ++ [e])).

Definition set_enable_backprop (b : bool) : M unit :=
  fun w => (Ok tt, mk_World b (model w) (trace w)).

Definition model_to_cpu : M unit :=
  fun w => (Ok tt, mk_World (enable_backprop w) (to_cpu (model w)) (trace w)).

Definition model_params : M (list variable) :=
  fun w => (Ok (params (model w)), w).

(** The positional and the keyword call of the model (lines 140, 142). *)
Definition model_call (args : list pyvalue) : M pyoutputs :=
  (emit (EvForward args) ;;; fun w => (call (model w) args, w))%export.

Definition model_call_kw (args : list (string * pyvalue)) : M pyoutputs :=
  (emit (EvForwardKw args) ;;; fun w => (call_kw (model w) args, w))%export.

(* ================================================================== *)
(** ** export *)
(* ================================================================== *)

(** The destination given as [filename]. *)
Inductive pyfile : Type :=
| FileNone
| FilePath (path : string)        (* a [str] *)
| FileObject (fp : Z)             (* an object with a [write] attribute *)
| FileOther.                      (* anything else *)

Definition _check_available (env : Env) : M unit :=
  if onnx_available env then ret tt
  else raise (ImportError
    "ONNX is not installed on your environment. Exporting your model in ONNX format needs the onnx package.").

(** [type(args)] as the message shows it. *)
Definition type_of (v : pyvalue) : string :=
  match v with
  | PyList _ => "<class 'list'>"
  | PyTuple _ => "<class 'tuple'>"
  | PyDict _ => "<class 'dict'>"
  | PyArray _ => "<class 'numpy.ndarray'>"
  | PyVar _ => "<class 'chainer.variable.Variable'>"
  | PyNone => "<class 'NoneType'>"
  end.

(** Lines 134-136: every argument that is not a [Variable] is replaced
    by [chainer.Variable(arg)]. *)
Fixpoint wrap_args (env : Env) (args : list pyvalue) : M (list pyvalue) :=
  match args with
  | [] => ret []
  | arg :: rest =>
      (arg' <- match arg with
               | PyVar _ => ret arg
               | _ => lift (rbind (Variable_new env arg)
                                  (fun v => Ok (PyVar v)))
               end ;;
       rest' <- wrap_args env rest ;;
       ret (arg' :: rest'))%export
  end.

(** Lines 133-136. *)
Definition convert_args (env : Env) (args : pyvalue) : M pyvalue :=
  let args := match args with
              | PyList l => l
              | PyTuple l => l
              | _ => [args]
              end in
  (args' <- wrap_args env args ;; ret (PyList args'))%export.

(** Lines 139-146. *)
Definition forward (args : pyvalue) : M pyoutputs :=
  match args with
  | PyList l => model_call l
  | PyDict d => model_call_kw d
  | _ => raise (ValueError
           ("The 'args' argument should be a list or dict. But a "
            ++ type_of args ++ " object was given.")%string)
  end.

(** An empty shape is declared as [(1,)]. *)
Definition normalize_shape (s : list Z) : list Z :=
  if shape_is_empty s then [1] else s.

(** The entry of [input_tensors] for a parameter of the model. *)
Definition param_value_info (param : variable) : ValueInfoProto :=
  make_tensor_value_info (str (v_id param))
    (NP_TYPE_TO_TENSOR_TYPE (a_dtype (v_array param)))
    (normalize_shape (v_shape param)).

(** The same for an additional parameter: [param.array] fails on a
    bare array. *)
Definition additional_value_info (param : pyparam) : result ValueInfoProto :=
  match param with
  | ParamVar v => Ok (param_value_info v)
  | ParamArray a =>
      Raise (AttributeError "'numpy.ndarray' object has no attribute 'array'")
  end.

Fixpoint additional_value_infos (ps : list pyparam) :
    result (list ValueInfoProto) :=
  match ps with
  | [] => Ok []
  | p :: rest =>
      (vi <- additional_value_info p ;;
       vis <- additional_value_infos rest ;;
       Ok (vi :: vis))%result
  end.

Definition tensor_value_info (i : tensor) : ValueInfoProto :=
  make_tensor_value_info (str (id_of i))
    (NP_TYPE_TO_TENSOR_TYPE (dtype_of i)) (shape_of i).

Definition output_value_info (output : variable) : ValueInfoProto :=
  make_tensor_value_info (str (v_id output))
    (NP_TYPE_TO_TENSOR_TYPE (v_dtype output)) (v_shape output).

(** [output.grad = numpy.ones_like(...)] and [output.backward()] under
    the hook [o]. *)
Definition backward_under (env : Env) (o : ONNXExport) (output : variable) :
    M ONNXExport :=
  (emit (EvSetGrad output) ;;;
   emit (EvBackward output) ;;;
   lift (run_hook env o (backward env output)))%export.

Fixpoint backward_each (env : Env) (o : ONNXExport) (outs : list variable) :
    M ONNXExport :=
  match outs with
  | [] => ret o
  | output :: rest =>
      (o' <- backward_under env o output ;; backward_each env o' rest)%export
  end.

(** Lines 156-164: the [with ONNXExport() as o] block. *)
Definition capture (env : Env) (outs : pyoutputs) : M ONNXExport :=
  match outs with
  | OutList l => backward_each env ONNXExport_init l
  | OutTuple l => backward_each env ONNXExport_init l
  | OutVariable y => backward_under env ONNXExport_init y
  | OutDict _ => ret ONNXExport_init
  end.

(** Lines 185-188: the outputs as a sequence. *)
Definition outputs_sequence (outs : pyoutputs) : list variable :=
  match outs with
  | OutDict d => dict_values d
  | OutList l => l
  | OutTuple l => l
  | OutVariable y => [y]
  end.

Definition check (r : option exn) : M unit :=
  match r with Some e => raise e | None => ret tt end.

(** Lines 211-218. *)
Definition save (filename : pyfile) (save_text : bool) (m : ModelProto) :
    M unit :=
  match filename with
  | FilePath path =>
      (emit (EvWriteBinary path m) ;;;
       if save_text then emit (EvWriteText (path ++ ".txt")%string m) else ret tt)%export
  | FileObject fp => emit (EvStreamWrite fp m)
  | FileNone => ret tt
  | FileOther => ret tt
  end.

Definition export (env : Env) (args : pyvalue) (filename : pyfile)
    (export_params : bool) (graph_name : string) (save_text : bool) :
    M ModelProto :=
  (_check_available env ;;;
   set_enable_backprop true ;;;
   model_to_cpu ;;;
   args <- convert_args env args ;;
   outs <- forward args ;;
   ps <- model_params ;;
   let initializers := map (fun p => convert_parameter (ParamVar p)) ps in
   let input_tensors := map param_value_info ps in
   o <- capture env outs ;;
   let initializers :=
     initializers ++ map convert_parameter (additional_parameters o) in
   more <- lift (additional_value_infos (additional_parameters o)) ;;
   let input_tensors := input_tensors ++ more in
   let input_tensors :=
     input_tensors ++ map tensor_value_info (dict_values (network_inputs o)) in
   let graph := rev (graph o) in
   let output_tensors := map output_value_info (outputs_sequence outs) in
   let initializers := if export_params then initializers else [] in
   let onnx_graph :=
     make_graph graph graph_name input_tensors output_tensors initializers in
   check (check_graph env onnx_graph) ;;;
   let m := mk_ModelProto onnx_graph "Chainer" (chainer_version env)
              (IR_VERSION env) in
   check (check_model env m) ;;;
   save filename save_text m ;;;
   ret m)%export.

(* ================================================================== *)
(** ** A session: y = a * x + b *)
(* ================================================================== *)

Module Scenario.

(** Modelled from the spec: the converters of [onnx_chainer.functions]
    are not part of the sources at hand.  The spec describes a converter
    as producing node descriptors from the function and the names
    assigned to its inputs and outputs; for the multiplication and the
    addition of the scenario that is one node each, of type [Mul] and
    [Add], over exactly those names. *)
Definition convert_Mul : converter :=
  fun _ input_names output_names parameters =>
    Ok ([make_node "Mul" input_names output_names []], parameters).

Definition convert_Add : converter :=
  fun _ input_names output_names parameters =>
    Ok ([make_node "Add" input_names output_names []], parameters).

Definition converters (name : string) : option converter :=
  if String.eqb name "convert_Mul" then Some convert_Mul
  else if String.eqb name "convert_Add" then Some convert_Add
  else None.

(** The arrays: [a], [b] and [x] of shape (2, 3). *)
Definition a_array := mk_ndarray 301 [2; 3] float32 [1; 2; 3; 4; 5; 6].
Definition b_array := mk_ndarray 302 [2; 3] float32 [0; 0; 0; 1; 1; 1].
Definition x_array := mk_ndarray 303 [2; 3] float32 [7; 8; 9; 7; 8; 9].
Definition y_array := mk_ndarray 305 [2; 3] float32 [7; 16; 27; 29; 41; 55].

(** The parameters [a] and [b], the input [x] and the output [y]. *)
Definition a := mk_variable 101 true a_array.
Definition b := mk_variable 102 true b_array.
Definition x := mk_variable 103 false x_array.
Definition y := mk_variable 105 false y_array.

(** Their nodes, and the node of the product [h = a * x], whose
    [Variable] is gone when the forward pass has returned. *)
Definition a_node := mk_VariableNode 201 (Some a) [2; 3] float32.
Definition b_node := mk_VariableNode 202 (Some b) [2; 3] float32.
Definition x_node := mk_VariableNode 203 (Some x) [2; 3] float32.
Definition h_node := mk_VariableNode 204 None [2; 3] float32.
Definition y_node := mk_VariableNode 205 (Some y) [2; 3] float32.

Definition Mul := mk_Function "Mul" [a_node; x_node] [h_node].
Definition Add := mk_Function "Add" [h_node; b_node] [y_node].

Definition env : Env := {|
  onnx_available := true;
  functions_attr := converters;
  check_node := fun _ => None;
  check_graph := fun _ => None;
  check_model := fun _ => None;
  (* the one array wrapped in these sessions is [x_array]; the
     [Variable] made from it is [x] *)
  Variable_new := fun v =>
    match v with
    | PyArray arr => Ok (mk_variable 103 false arr)
    | _ => Raise (ForeignError "TypeError")
    end;
  backward := fun out =>
    if Z.eqb (v_id out) 105 then [FunctionNode Add; FunctionNode Mul] else [];
  chainer_version := "4.0.0";
  IR_VERSION := 3
|}.

Definition chain : Chain := {|
  params := [a; b];
  on_gpu := false;
  call := fun _ => Ok (OutVariable y);
  call_kw := fun _ => Ok (OutVariable y)
|}.

Definition world : World := mk_World false chain [].

End Scenario.


(* ================================================================== *)
(** ** Notions the properties are stated with *)
(* ================================================================== *)

(** The world after lines 126-130 of [export]. *)
Definition prepared (w : World) : World :=
  mk_World true (to_cpu (model w)) (trace w).

(** The rest of [export] once the forward pass has returned [outs]
    (from line 148 on). *)
Definition finish (env : Env) (outs : pyoutputs) (filename : pyfile)
    (export_params : bool) (graph_name : string) (save_text : bool) :
    M ModelProto :=
  (ps <- model_params ;;
   o <- capture env outs ;;
   more <- lift (additional_value_infos (additional_parameters o)) ;;
   let onnx_graph :=
     make_graph (rev (graph o)) graph_name
       ((map param_value_info ps ++ more) ++
        map tensor_value_info (dict_values (network_inputs o)))
       (map output_value_info (outputs_sequence outs))
       (if export_params
        then map (fun p => convert_parameter (ParamVar p)) ps ++
             map convert_parameter (additional_parameters o)
        else []) in
   check (check_graph env onnx_graph) ;;;
   let m := mk_ModelProto onnx_graph "Chainer" (chainer_version env)
              (IR_VERSION env) in
   check (check_model env m) ;;;
   save filename save_text m ;;;
   ret m)%export.

(** The functions the hook is called on in one session, in call
    order: those of each backward pass, one output after the other. *)
Definition session_calls (env : Env) (outs : pyoutputs) : list pyfunction :=
  match outs with
  | OutList l => flat_map (backward env) l
  | OutTuple l => flat_map (backward env) l
  | OutVariable y => backward env y
  | OutDict _ => []
  end.

(** The call of [create_node] that the hook makes on [function] in
    the state [self]. *)
Definition converted (env : Env) (self : ONNXExport) (function : pyfunction) :
    result (list NodeProto * list pyparam) :=
  let function := unwrap function in
  create_node env (class_name function) function
    (fst (visit_inputs (network_inputs self) (inputs function)))
    (output_names_of function) (additional_parameters self).

(** All nodes the converters return along a run of the hook, with
    repetitions, in the order they are returned. *)
Fixpoint produced (env : Env) (self : ONNXExport) (fs : list pyfunction) :
    list NodeProto :=
  match fs with
  | [] => []
  | f :: rest =>
      match converted env self f, backward_postprocess env self f with
      | Ok (nodes, _), Ok self' => nodes ++ produced env self' rest
      | _, _ => []
      end
  end.

(** The object the hook names for an input node: the node itself, or
    its [Variable] when that is alive. *)
Definition resolved (i : VariableNode) : tensor :=
  match get_variable_or_none i with
  | None => TNode i
  | Some var => TVar var
  end.

Definition input_name (i : VariableNode) : string := str (id_of (resolved i)).
Definition output_name (o : VariableNode) : string := str (n_id o).

Definition declared_inputs (g : GraphProto) : list string :=
  map vi_name (g_input g).

(** A name that some node of the graph has among its outputs. *)
Definition produces (g : GraphProto) (name : string) : Prop :=
  exists m, In m (g_node g) /\ In name (output m).

(** The order a topologically sorted node list has: a node that
    consumes what a node of the graph produces comes strictly after a
    node that produces it. *)
Definition producers_come_first (g : GraphProto) : Prop :=
  forall pre n post, g_node g = pre ++ n :: post ->
  forall name, In name (input n) -> produces g name ->
    exists m, In m pre /\ In name (output m).

(** A converter that names no tensor of its own: the inputs of its
    nodes are among the input names it was given and the names of the
    additional parameters, of which it removes none. *)
Definition uses_given_names (c : converter) : Prop :=
  forall f ins outs ps nodes ps',
    c f ins outs ps = Ok (nodes, ps') ->
    incl ps ps' /\
    forall n name, In n nodes -> In name (input n) ->
      In name ins \/ In name (map (fun p => str (param_id p)) ps').

(** The parameters the functions of a backward pass consume are
    parameters of the model. *)
Definition parameters_belong_to (env : Env) (m : Chain) : Prop :=
  forall y f i var,
    In f (backward env y) -> In i (inputs (unwrap f)) ->
    get_variable_or_none i = Some var -> v_is_parameter var = true ->
    In var (params m).

Definition is_write (e : effect) : bool :=
  match e with
  | EvWriteBinary _ _ => true
  | EvWriteText _ _ => true
  | EvStreamWrite _ _ => true
  | _ => false
  end.

Definition is_backward (e : effect) : bool :=
  match e with EvBackward _ => true | _ => false end.

Definition is_forward (e : effect) : bool :=
  match e with EvForward _ => true | EvForwardKw _ => true | _ => false end.

(** The state outside the session that an export could leave as it
    found it: the configuration flag and the model. *)
Definition outside_unchanged (w w' : World) : Prop :=
  enable_backprop w' = enable_backprop w /\
  on_gpu (model w') = on_gpu (model w) /\
  params (model w') = params (model w).

(** The model an export returns, from the session object [o]. *)
Definition assembled (env : Env) (ps : list variable) (o : ONNXExport)
    (more : list ValueInfoProto) (outs : pyoutputs) (export_params : bool)
    (graph_name : string) : ModelProto :=
  mk_ModelProto
    (make_graph (rev (graph o)) graph_name
       ((map param_value_info ps ++ more) ++
        map tensor_value_info (dict_values (network_inputs o)))
       (map output_value_info (outputs_sequence outs))
       (if export_params
        then map (fun p => convert_parameter (ParamVar p)) ps ++
             map convert_parameter (additional_parameters o)
        else []))
    "Chainer" (chainer_version env) (IR_VERSION env).

(** A name that the graph will declare as an input: the name of a
    parameter of the model, of an additional parameter, or a key of the
    dictionary of network inputs. *)
Definition known (ps : list variable) (o : ONNXExport) (name : string) : Prop :=
  In name (map (fun p => str (v_id p)) ps) \/
  In name (map (fun p => str (param_id p)) (additional_parameters o)) \/
  In name (dict_keys (network_inputs o)).

(** [w'] has the flag and the model of [w], and its trace is that of
    [w] followed by effects that all pass [Q]. *)
Definition extends (Q : effect -> bool) (w w' : World) : Prop :=
  enable_backprop w' = enable_backprop w /\
  model w' = model w /\
  exists t, trace w' = trace w ++ t /\ forallb Q t = true.

Definition keeps {A} (Q : effect -> bool) (c : M A) : Prop :=
  forall w, extends Q w (snd (c w)).

(* ================================================================== *)
(** ** Variations of the session *)
(* ================================================================== *)

Module Variants.
Import Scenario.

(** The converter module without [convert_Add]. *)
Definition functions_without_Add (name : string) : option converter :=
  if String.eqb name "convert_Mul" then Some convert_Mul else None.

Definition env_without_Add : Env := {|
  onnx_available := true;
  functions_attr := functions_without_Add;
  check_node := check_node env;
  check_graph := check_graph env;
  check_model := check_model env;
  Variable_new := Variable_new env;
  backward := backward env;
  chainer_version := chainer_version env;
  IR_VERSION := IR_VERSION env
|}.

(** A model with two outputs over the same product:
    [h = a * x], [y = h + b], [z = h * a], returning [(y, z)]. *)
Definition z_array := mk_ndarray 306 [2; 3] float32 [7; 32; 81; 112; 200; 324].
Definition z := mk_variable 106 false z_array.
Definition z_node := mk_VariableNode 206 (Some z) [2; 3] float32.
Definition Mul2 := mk_Function "Mul" [h_node; a_node] [z_node].

Definition env_two_outputs : Env := {|
  onnx_available := true;
  functions_attr := converters;
  check_node := check_node env;
  check_graph := check_graph env;
  check_model := check_model env;
  Variable_new := Variable_new env;
  backward := fun out =>
    if Z.eqb (v_id out) 105 then [FunctionNode Add; FunctionNode Mul]
    else if Z.eqb (v_id out) 106 then [FunctionNode Mul2; FunctionNode Mul]
    else [];
  chainer_version := chainer_version env;
  IR_VERSION := IR_VERSION env
|}.

Definition chain_two_outputs : Chain := {|
  params := [a; b];
  on_gpu := false;
  call := fun _ => Ok (OutTuple [y; z]);
  call_kw := fun _ => Ok (OutTuple [y; z])
|}.

Definition world_two_outputs : World := mk_World true chain_two_outputs [].

(** The same model as in the scenario with a scalar [b]. *)
Definition b0_array := mk_ndarray 312 [] float32 [5].
Definition b0 := mk_variable 112 true b0_array.
Definition b0_node := mk_VariableNode 212 (Some b0) [] float32.
Definition Add0 := mk_Function "Add" [h_node; b0_node] [y_node].

Definition env_scalar : Env := {|
  onnx_available := true;
  functions_attr := converters;
  check_node := check_node env;
  check_graph := check_graph env;
  check_model := check_model env;
  Variable_new := Variable_new env;
  backward := fun out =>
    if Z.eqb (v_id out) 105 then [FunctionNode Add0; FunctionNode Mul] else [];
  chainer_version := chainer_version env;
  IR_VERSION := IR_VERSION env
|}.

Definition chain_scalar : Chain := {|
  params := [a; b0];
  on_gpu := false;
  call := fun _ => Ok (OutVariable y);
  call_kw := fun _ => Ok (OutVariable y)
|}.

Definition world_scalar : World := mk_World true chain_scalar [].

(** The model of the scenario returning [{'y': y}]. *)
Definition chain_dict : Chain := {|
  params := [a; b];
  on_gpu := false;
  call := fun _ => Ok (OutDict [("y", y)]);
  call_kw := fun _ => Ok (OutDict [("y", y)])
|}.

Definition world_dict : World := mk_World true chain_dict [].

(** The product [h] with its [Variable] still alive, as when the
    model keeps it in an attribute or returns it. *)
Definition h_array := mk_ndarray 304 [2; 3] float32 [7; 16; 27; 28; 40; 54].
Definition h := mk_variable 104 false h_array.
Definition h_node_alive := mk_VariableNode 204 (Some h) [2; 3] float32.
Definition Mul_alive := mk_Function "Mul" [a_node; x_node] [h_node_alive].
Definition Add_alive := mk_Function "Add" [h_node_alive; b_node] [y_node].

End Variants.

(* ================================================================== *)
(** ** Effects and sessions for the further properties *)
(* ================================================================== *)

Definition is_forward_kw (e : effect) : bool :=
  match e with EvForwardKw _ => true | _ => false end.

(** What the with-block of [export] does to the outputs it traverses:
    for each one in turn the gradient is set, then the backward pass is
    run.  A dict is not traversed. *)
Definition backward_effects (outs : pyoutputs) : list effect :=
  match outs with
  | OutDict _ => []
  | _ => flat_map (fun y => [EvSetGrad y; EvBackward y]) (outputs_sequence outs)
  end.

(** What is written for a destination: the binary form at a path, and
    the text form beside it on request; the binary form on a file
    object; nothing otherwise. *)
Definition write_effects (filename : pyfile) (save_text : bool)
    (m : ModelProto) : list effect :=
  match filename with
  | FilePath path =>
      EvWriteBinary path m ::
      (if save_text then [EvWriteText (path ++ ".txt")%string m] else [])
  | FileObject fp => [EvStreamWrite fp m]
  | FileNone => []
  | FileOther => []
  end.

(** The entry of the graph inputs that fits an initializer. *)
Definition value_info_of (t : TensorProto) : ValueInfoProto :=
  make_tensor_value_info (t_name t) (t_data_type t) (t_dims t).

Module Faults.
Import Scenario.

(** The scenario on a machine without the onnx package. *)
Definition env_without_onnx : Env := {|
  onnx_available := false;
  functions_attr := converters;
  check_node := check_node env;
  check_graph := check_graph env;
  check_model := check_model env;
  Variable_new := Variable_new env;
  backward := backward env;
  chainer_version := chainer_version env;
  IR_VERSION := IR_VERSION env
|}.

(** The scenario with a constructor of [Variable] that accepts
    nothing. *)
Definition env_failing_Variable : Env := {|
  onnx_available := true;
  functions_attr := converters;
  check_node := check_node env;
  check_graph := check_graph env;
  check_model := check_model env;
  Variable_new := fun _ => Raise (ForeignError "TypeError");
  backward := backward env;
  chainer_version := chainer_version env;
  IR_VERSION := IR_VERSION env
|}.

(** A converter for [Mul] that appends a bare array to the additional
    parameters and gives its name to the node as a third input. *)
Definition c_array := mk_ndarray 307 [1] float32 [2].
Definition convert_Mul_with_array : converter :=
  fun _ input_names output_names parameters =>
    Ok ([make_node "Mul" (input_names ++ [str (a_id c_array)])
           output_names []],
        parameters ++ [ParamArray c_array]).

Definition env_with_array : Env := {|
  onnx_available := true;
  functions_attr := fun name =>
    if String.eqb name "convert_Mul" then Some convert_Mul_with_array
    else converters name;
  check_node := check_node env;
  check_graph := check_graph env;
  check_model := check_model env;
  Variable_new := Variable_new env;
  backward := backward env;
  chainer_version := chainer_version env;
  IR_VERSION := IR_VERSION env
|}.

(** The scenario with a checker that rejects every [Add] node. *)
Definition env_rejecting_Add : Env := {|
  onnx_available := true;
  functions_attr := converters;
  check_node := fun n =>
    if String.eqb (op_type n) "Add"
    then Some (ForeignError "ValidationError") else None;
  check_graph := check_graph env;
  check_model := check_model env;
  Variable_new := Variable_new env;
  backward := backward env;
  chainer_version := chainer_version env;
  IR_VERSION := IR_VERSION env
|}.

End Faults.

(* ================================================================== *)
(** * Properties *)
(* ================================================================== *)

(** ** Decimal strings *)

Lemma to_int_not_nil (n : Z) :
  Z.to_int n <> Decimal.Pos Decimal.Nil /\ Z.to_int n <> Decimal.Neg Decimal.Nil.
Proof.
  split; intro H;
    assert (E : n = 0)
      by (apply (f_equal Z.of_int) in H; now rewrite DecimalZ.of_to in H);
    subst n; vm_compute in H; discriminate.
Qed.

Lemma str_inj (n m : Z) : str n = str m -> n = m.
Proof.
  unfold str. intro H.
  apply DecimalZ.to_int_inj.
  assert (E : Some (Z.to_int n) = Some (Z.to_int m)).
  { destruct (to_int_not_nil n) as [n1 n2], (to_int_not_nil m) as [m1 m2].
    rewrite <- (DecimalString.NilZero.isi (Z.to_int n) n1 n2).
    rewrite <- (DecimalString.NilZero.isi (Z.to_int m) m1 m2).
    now rewrite H. }
  now injection E.
Qed.

(** ** The result monads *)

Lemma export_unfold env args filename export_params graph_name save_text :
  export env args filename export_params graph_name save_text =
  (_check_available env ;;;
   set_enable_backprop true ;;;
   model_to_cpu ;;;
   args' <- convert_args env args ;;
   outs <- forward args' ;;
   finish env outs filename export_params graph_name save_text)%export.
Proof. reflexivity. Qed.

(** ** Dictionaries *)

Lemma dict_mem_keys {V} (k : string) (d : list (string * V)) :
  dict_mem k d = true <-> In k (dict_keys d).
Proof.
  unfold dict_mem, dict_keys. rewrite existsb_exists, in_map_iff. split.
  - intros [[k' v] [Hin Heq]]. apply String.eqb_eq in Heq. simpl in Heq.
    subst k'. now exists (k, v).
  - intros [[k' v] [Heq Hin]]. simpl in Heq. subst k'.
    exists (k, v). split; [ assumption | apply String.eqb_refl ].
Qed.

Lemma dict_set_keys {V} (k k0 : string) (v : V) (d : list (string * V)) :
  In k (dict_keys (dict_set k0 v d)) <-> k = k0 \/ In k (dict_keys d).
Proof.
  induction d as [ | [k1 v1] d IH ]; simpl.
  - intuition.
  - destruct (String.eqb k0 k1) eqn:E; simpl.
    + apply String.eqb_eq in E. subst k1. intuition.
    + rewrite IH. intuition.
Qed.

Lemma dict_set_entries {V} (k k0 : string) (t v : V) (d : list (string * V)) :
  In (k, t) (dict_set k0 v d) -> (k = k0 /\ t = v) \/ In (k, t) d.
Proof.
  induction d as [ | [k1 v1] d IH ]; simpl.
  - intros [H | []]. injection H as <- <-. now left.
  - destruct (String.eqb k0 k1) eqn:E; simpl.
    + intros [H | H]; [ injection H as <- <-; now left | right; now right ].
    + intros [H | H]; [ right; now left | ].
      destruct (IH H) as [? | ?]; [ now left | right; now right ].
Qed.

(** ** The loop over the inputs of a function *)

Lemma visit_input_name net i : fst (visit_input net i) = input_name i.
Proof.
  unfold visit_input, input_name, resolved.
  destruct (get_variable_or_none i) as [var | ]; [ | reflexivity ].
  now destruct (v_is_parameter var).
Qed.

Lemma visit_inputs_names net ins :
  fst (visit_inputs net ins) = map input_name ins.
Proof.
  revert net. induction ins as [ | i ins IH ]; intro net; simpl.
  - reflexivity.
  - pose proof (visit_input_name net i) as Hn.
    destruct (visit_input net i) as [name net1]. simpl in Hn. subst name.
    specialize (IH net1). destruct (visit_inputs net1 ins) as [names net2].
    simpl in *. now subst names.
Qed.

Lemma visit_inputs_cons net i ins :
  snd (visit_inputs net (i :: ins)) =
  snd (visit_inputs (snd (visit_input net i)) ins).
Proof.
  simpl. destruct (visit_input net i) as [name net1]. simpl.
  now destruct (visit_inputs net1 ins).
Qed.

Lemma visit_input_keys net i k :
  In k (dict_keys net) -> In k (dict_keys (snd (visit_input net i))).
Proof.
  intro H. unfold visit_input.
  destruct (get_variable_or_none i) as [var | ].
  - destruct (v_is_parameter var); simpl; [ assumption | ].
    apply dict_set_keys. now right.
  - simpl. destruct (dict_mem (str (n_id i)) net); [ assumption | ].
    apply dict_set_keys. now right.
Qed.

Lemma visit_inputs_keys net ins k :
  In k (dict_keys net) -> In k (dict_keys (snd (visit_inputs net ins))).
Proof.
  revert net. induction ins as [ | i ins IH ]; intros net H.
  - exact H.
  - rewrite visit_inputs_cons. apply IH. now apply visit_input_keys.
Qed.

(** An input that is not a parameter is a key of the dictionary after
    its turn of the loop. *)
Lemma visit_input_registers net i :
  is_Parameter (resolved i) = false ->
  In (input_name i) (dict_keys (snd (visit_input net i))).
Proof.
  unfold visit_input, input_name, resolved.
  destruct (get_variable_or_none i) as [var | ]; simpl.
  - intros ->. simpl. apply dict_set_keys. now left.
  - intros _. destruct (dict_mem (str (n_id i)) net) eqn:E.
    + now apply dict_mem_keys.
    + apply dict_set_keys. now left.
Qed.

Lemma visit_inputs_registers net ins i :
  In i ins -> is_Parameter (resolved i) = false ->
  In (input_name i) (dict_keys (snd (visit_inputs net ins))).
Proof.
  revert net. induction ins as [ | j ins IH ]; intros net Hin Hp;
    [ destruct Hin | destruct Hin as [ -> | Hin ] ].
  - rewrite visit_inputs_cons. apply visit_inputs_keys.
    now apply visit_input_registers.
  - rewrite visit_inputs_cons. now apply IH.
Qed.

(** What the loop leaves in the dictionary was there before or is the
    object of one of the inputs, which is not a parameter. *)
Lemma visit_input_entries net i k t :
  In (k, t) (snd (visit_input net i)) ->
  In (k, t) net \/
  (k = input_name i /\ t = resolved i /\ is_Parameter t = false).
Proof.
  unfold visit_input, input_name, resolved.
  destruct (get_variable_or_none i) as [var | ]; simpl.
  - destruct (v_is_parameter var) eqn:E; simpl; [ now left | ].
    intro H. apply dict_set_entries in H as [[-> ->] | H]; [ right | now left ].
    now repeat split.
  - destruct (dict_mem (str (n_id i)) net); [ now left | ].
    intro H. apply dict_set_entries in H as [[-> ->] | H]; [ right | now left ].
    now repeat split.
Qed.

Lemma visit_inputs_entries net ins k t :
  In (k, t) (snd (visit_inputs net ins)) ->
  In (k, t) net \/
  exists i, In i ins /\ k = input_name i /\ t = resolved i /\
            is_Parameter t = false.
Proof.
  revert net. induction ins as [ | j ins IH ]; intros net H.
  - now left.
  - rewrite visit_inputs_cons in H. apply IH in H as [H | (i & Hi & Hr)].
    + apply visit_input_entries in H as [H | Hr]; [ now left | right ].
      exists j. split; [ now left | exact Hr ].
    + right. exists i. split; [ now right | exact Hr ].
Qed.

(** ** Appending without duplicates *)

Lemma append_new_In g nodes n :
  In n (append_new g nodes) <-> In n g \/ In n nodes.
Proof.
  revert g. induction nodes as [ | node rest IH ]; intro g; simpl.
  - intuition.
  - destruct (in_dec NodeProto_eq_dec node g) as [Hin | Hout]; rewrite IH.
    + intuition. subst. now left.
    + rewrite in_app_iff. simpl. intuition.
Qed.

Lemma append_new_NoDup g nodes : NoDup g -> NoDup (append_new g nodes).
Proof.
  revert g. induction nodes as [ | node rest IH ]; intros g Hg; simpl.
  - exact Hg.
  - destruct (in_dec NodeProto_eq_dec node g) as [Hin | Hout].
    + now apply IH.
    + apply IH. apply NoDup_rev in Hg. rewrite <- (rev_involutive (g ++ [node])).
      apply NoDup_rev. rewrite rev_app_distr. simpl. constructor.
      * now rewrite <- in_rev.
      * exact Hg.
Qed.

(** ** One call of the hook *)

Lemma backward_postprocess_Ok env self f self' :
  backward_postprocess env self f = Ok self' ->
  exists c nodes,
    functions_attr env ("convert_" ++ class_name (unwrap f))%string = Some c /\
    c (unwrap f) (map input_name (inputs (unwrap f)))
      (output_names_of (unwrap f)) (additional_parameters self)
      = Ok (nodes, additional_parameters self') /\
    check_nodes env nodes = Ok tt /\
    converted env self f = Ok (nodes, additional_parameters self') /\
    graph self' = append_new (graph self) nodes /\
    network_inputs self' =
      snd (visit_inputs (network_inputs self) (inputs (unwrap f))).
Proof.
  unfold backward_postprocess, converted.
  pose proof (visit_inputs_names (network_inputs self) (inputs (unwrap f))) as Hn.
  destruct (visit_inputs (network_inputs self) (inputs (unwrap f)))
    as [input_names net].
  simpl in Hn. subst input_names. simpl fst. unfold create_node.
  destruct (functions_attr env _) as [c | ]; [ | discriminate ].
  destruct (c _ _ _ _) as [[nodes ps'] | e] eqn:Ec; [ | discriminate ].
  simpl. destruct (check_nodes env nodes) as [[] | e] eqn:Ek; [ | discriminate ].
  simpl. intro H. injection H as <-. simpl.
  exists c, nodes. repeat split; assumption || reflexivity.
Qed.

Lemma run_hook_app env self fs1 fs2 :
  run_hook env self (fs1 ++ fs2) =
  rbind (run_hook env self fs1) (fun self' => run_hook env self' fs2).
Proof.
  revert self. induction fs1 as [ | f fs1 IH ]; intro self; simpl.
  - reflexivity.
  - destruct (backward_postprocess env self f) as [self' | e]; simpl;
      [ apply IH | reflexivity ].
Qed.

(** ** How a computation leaves the world *)

Lemma extends_refl Q w : extends Q w w.
Proof.
  repeat split. exists []. now rewrite app_nil_r.
Qed.

Lemma extends_trans Q w1 w2 w3 :
  extends Q w1 w2 -> extends Q w2 w3 -> extends Q w1 w3.
Proof.
  intros (e1 & m1 & t1 & Ht1 & Hq1) (e2 & m2 & t2 & Ht2 & Hq2).
  repeat split; [ congruence | congruence | ].
  exists (t1 ++ t2). rewrite Ht2, Ht1, app_assoc, forallb_app, Hq1, Hq2.
  now split.
Qed.

Lemma keeps_ret {A} Q (a : A) : keeps Q (ret a).
Proof. intro w. apply extends_refl. Qed.

Lemma keeps_raise {A} Q e : keeps Q (@raise A e).
Proof. intro w. apply extends_refl. Qed.

Lemma keeps_lift {A} Q (r : result A) : keeps Q (lift r).
Proof. intro w. apply extends_refl. Qed.

Lemma keeps_check Q r : keeps Q (check r).
Proof. destruct r; [ apply keeps_raise | apply keeps_ret ]. Qed.

Lemma keeps_emit Q e : Q e = true -> keeps Q (emit e).
Proof.
  intros H w. repeat split. exists [e]. simpl. now rewrite H.
Qed.

Lemma keeps_bind {A B} Q (c : M A) (k : A -> M B) :
  keeps Q c -> (forall a, keeps Q (k a)) -> keeps Q (bind c k).
Proof.
  intros Hc Hk w. unfold bind. specialize (Hc w).
  destruct (c w) as [[a | e] w1]; simpl in *.
  - eapply extends_trans; [ exact Hc | apply Hk ].
  - exact Hc.
Qed.

Create HintDb keeps.
#[local] Hint Resolve keeps_ret keeps_raise keeps_lift keeps_check
  keeps_emit : keeps.

Lemma keeps_model_params Q : keeps Q model_params.
Proof. intro w. apply extends_refl. Qed.

Lemma keeps_wrap_args Q env args : keeps Q (wrap_args env args).
Proof.
  induction args as [ | arg rest IH ]; simpl.
  - apply keeps_ret.
  - apply keeps_bind.
    + destruct arg; auto with keeps.
    + intro a. apply keeps_bind; [ exact IH | intro; apply keeps_ret ].
Qed.

Lemma keeps_convert_args Q env args : keeps Q (convert_args env args).
Proof.
  unfold convert_args. apply keeps_bind.
  - apply keeps_wrap_args.
  - intro. apply keeps_ret.
Qed.

Lemma keeps_forward Q args :
  (forall e, is_forward e = true -> Q e = true) -> keeps Q (forward args).
Proof.
  intro HQ.
  assert (Hcall : forall l, keeps Q (model_call l)).
  { intro l. unfold model_call. apply keeps_bind.
    - apply keeps_emit. now apply HQ.
    - intros _ w. apply extends_refl. }
  assert (Hkw : forall d, keeps Q (model_call_kw d)).
  { intro d. unfold model_call_kw. apply keeps_bind.
    - apply keeps_emit. now apply HQ.
    - intros _ w. apply extends_refl. }
  destruct args; simpl; auto with keeps.
Qed.

Lemma keeps_backward_under Q env o y :
  Q (EvSetGrad y) = true -> Q (EvBackward y) = true ->
  keeps Q (backward_under env o y).
Proof.
  intros H1 H2. unfold backward_under.
  apply keeps_bind; [ now apply keeps_emit | intros _ ].
  apply keeps_bind; [ now apply keeps_emit | intros _ ].
  apply keeps_lift.
Qed.

Lemma keeps_backward_each Q env o l :
  (forall y, Q (EvSetGrad y) = true /\ Q (EvBackward y) = true) ->
  keeps Q (backward_each env o l).
Proof.
  intro HQ. revert o. induction l as [ | y l IH ]; intro o; simpl.
  - apply keeps_ret.
  - apply keeps_bind; [ apply keeps_backward_under; apply HQ | exact IH ].
Qed.

Lemma keeps_capture Q env outs :
  (forall y, Q (EvSetGrad y) = true /\ Q (EvBackward y) = true) ->
  keeps Q (capture env outs).
Proof.
  intro HQ. destruct outs; simpl.
  - now apply keeps_backward_each.
  - now apply keeps_backward_each.
  - apply keeps_backward_under; apply HQ.
  - apply keeps_ret.
Qed.

Lemma keeps_save Q filename save_text m :
  (forall e, is_write e = true -> Q e = true) ->
  keeps Q (save filename save_text m).
Proof.
  intro HQ. destruct filename; simpl; auto with keeps.
  apply keeps_bind; [ apply keeps_emit; now apply HQ | intros _ ].
  destruct save_text; [ apply keeps_emit; now apply HQ | apply keeps_ret ].
Qed.

(** [convert_args] leaves the world as it is. *)
Lemma convert_args_world env args w : snd (convert_args env args w) = w.
Proof.
  destruct (keeps_convert_args (fun _ => false) env args w)
    as (He & Hm & t & Ht & Hq).
  destruct t as [ | e t ]; [ | discriminate ].
  rewrite app_nil_r in Ht.
  destruct (snd (convert_args env args w)) as [e' m' t'], w as [e0 m0 t0].
  simpl in *. congruence.
Qed.

(** ** The stages of [export] *)

Lemma export_staged env args filename export_params graph_name save_text
    w args' outs w2 :
  onnx_available env = true ->
  convert_args env args (prepared w) = (Ok args', prepared w) ->
  forward args' (prepared w) = (Ok outs, w2) ->
  export env args filename export_params graph_name save_text w =
  finish env outs filename export_params graph_name save_text w2.
Proof.
  intros Hav Hargs Hfwd. rewrite export_unfold.
  unfold bind at 1. unfold _check_available. rewrite Hav. simpl.
  unfold bind at 1. simpl. unfold bind at 1. simpl.
  fold (prepared w). unfold bind at 1. rewrite Hargs.
  unfold bind at 1. now rewrite Hfwd.
Qed.

Lemma export_Ok_inv env args filename export_params graph_name save_text
    w m w' :
  export env args filename export_params graph_name save_text w = (Ok m, w') ->
  onnx_available env = true /\
  exists args' outs w2,
    convert_args env args (prepared w) = (Ok args', prepared w) /\
    forward args' (prepared w) = (Ok outs, w2) /\
    finish env outs filename export_params graph_name save_text w2 = (Ok m, w').
Proof.
  rewrite export_unfold.
  unfold bind at 1. unfold _check_available.
  destruct (onnx_available env); [ | discriminate ]. simpl.
  unfold bind at 1. simpl. unfold bind at 1. simpl.
  fold (prepared w). unfold bind at 1.
  pose proof (convert_args_world env args (prepared w)) as Hw.
  destruct (convert_args env args (prepared w)) as [[args' | e] w1];
    [ | discriminate ].
  simpl in Hw. subst w1. unfold bind at 1.
  destruct (forward args' (prepared w)) as [[outs | e] w2] eqn:Hf;
    [ | discriminate ].
  intro H. split; [ reflexivity | ]. now exists args', outs, w2.
Qed.

Lemma backward_each_result env o l w :
  fst (backward_each env o l w) = run_hook env o (flat_map (backward env) l).
Proof.
  revert o w. induction l as [ | y l IH ]; intros o w; simpl.
  - reflexivity.
  - rewrite run_hook_app. unfold bind, backward_under, bind, emit, lift. simpl.
    destruct (run_hook env o (backward env y)) as [o' | e]; simpl;
      [ apply IH | reflexivity ].
Qed.

(** The session object a capture ends with is the one the hook
    reaches over the calls of the session. *)
Lemma capture_result env outs w :
  fst (capture env outs w) = run_hook env ONNXExport_init (session_calls env outs).
Proof.
  destruct outs; simpl; try apply backward_each_result; reflexivity.
Qed.

Lemma finish_Ok_inv env outs filename export_params graph_name save_text
    w m w' :
  finish env outs filename export_params graph_name save_text w = (Ok m, w') ->
  exists o more,
    run_hook env ONNXExport_init (session_calls env outs) = Ok o /\
    additional_value_infos (additional_parameters o) = Ok more /\
    m = assembled env (params (model w)) o more outs export_params graph_name.
Proof.
  unfold finish. unfold bind at 1. simpl. unfold bind at 1.
  pose proof (capture_result env outs w) as Hc.
  destruct (capture env outs w) as [[o | e] w3]; [ | discriminate ].
  simpl in Hc. unfold bind at 1. unfold lift at 1.
  destruct (additional_value_infos (additional_parameters o)) as [more | e]
    eqn:Hmore; [ | discriminate ].
  unfold bind at 1.
  destruct (check (check_graph env _) w3) as [[[] | e] w4]; [ | discriminate ].
  unfold bind at 1.
  destruct (check (check_model env _) w4) as [[[] | e] w5]; [ | discriminate ].
  unfold bind at 1.
  destruct (save filename save_text _ w5) as [[[] | e] w6]; [ | discriminate ].
  unfold ret. intro H. injection H as <- <-.
  exists o, more. split; [ now symmetry | split; [ exact Hmore | reflexivity ] ].
Qed.

(** ** The dictionary of network inputs along a run of the hook *)

Lemma run_hook_entries env self fs o k t :
  run_hook env self fs = Ok o ->
  In (k, t) (network_inputs o) ->
  In (k, t) (network_inputs self) \/
  exists f i, In f fs /\ In i (inputs (unwrap f)) /\
              k = input_name i /\ t = resolved i /\ is_Parameter t = false.
Proof.
  revert self. induction fs as [ | f fs IH ]; intros self Hrun Hin; simpl in Hrun.
  - injection Hrun as <-. now left.
  - destruct (backward_postprocess env self f) as [self' | e] eqn:Hstep;
      [ | discriminate ].
    simpl in Hrun. destruct (IH _ Hrun Hin) as [Hold | (g & i & Hg & Hr)].
    + apply backward_postprocess_Ok in Hstep
        as (c & nodes & _ & _ & _ & _ & _ & Hnet).
      rewrite Hnet in Hold.
      apply visit_inputs_entries in Hold as [Hold | (i & Hi & Hr)];
        [ now left | right ].
      exists f, i. split; [ now left | now split ].
    + right. exists g, i. split; [ now right | exact Hr ].
Qed.

Lemma session_calls_backward env outs f :
  In f (session_calls env outs) -> exists y, In f (backward env y).
Proof.
  destruct outs; simpl; try rewrite in_flat_map.
  - intros (y & _ & H). now exists y.
  - intros (y & _ & H). now exists y.
  - intro H. now exists v.
  - intros [].
Qed.

(** ** Names known to the graph *)

Section KnownNames.

Variable env : Env.
Variable ps : list variable.

Hypothesis converters_use_given_names :
  forall name c, functions_attr env name = Some c -> uses_given_names c.

Lemma backward_postprocess_known self f self' :
  (forall i var, In i (inputs (unwrap f)) ->
     get_variable_or_none i = Some var -> v_is_parameter var = true ->
     In var ps) ->
  backward_postprocess env self f = Ok self' ->
  (forall n name, In n (graph self) -> In name (input n) -> known ps self name) ->
  forall n name, In n (graph self') -> In name (input n) -> known ps self' name.
Proof.
  intros Hpar Hstep Hinv n name Hn Hname.
  apply backward_postprocess_Ok in Hstep
    as (c & nodes & Hc & Hcall & _ & _ & Hgraph & Hnet).
  destruct (converters_use_given_names _ _ Hc _ _ _ _ _ _ Hcall)
    as [Hincl Hnodes].
  rewrite Hgraph in Hn. apply append_new_In in Hn as [Hold | Hnew].
  - destruct (Hinv _ _ Hold Hname) as [H | [H | H]].
    + now left.
    + right; left. apply in_map_iff in H as (p & <- & Hp).
      apply (in_map (fun q => str (param_id q))). now apply Hincl.
    + right; right. rewrite Hnet. now apply visit_inputs_keys.
  - destruct (Hnodes _ _ Hnew Hname) as [H | H].
    + apply in_map_iff in H as (i & <- & Hi).
      destruct (is_Parameter (resolved i)) eqn:Ep.
      * left. unfold input_name, resolved in *.
        destruct (get_variable_or_none i) as [var | ] eqn:Ev;
          [ | discriminate ].
        simpl in *. apply (in_map (fun p => str (v_id p))).
        now apply (Hpar i).
      * right; right. rewrite Hnet. now apply visit_inputs_registers.
    + right; now left.
Qed.

Lemma run_hook_known self fs o :
  (forall f i var, In f fs -> In i (inputs (unwrap f)) ->
     get_variable_or_none i = Some var -> v_is_parameter var = true ->
     In var ps) ->
  run_hook env self fs = Ok o ->
  (forall n name, In n (graph self) -> In name (input n) -> known ps self name) ->
  forall n name, In n (graph o) -> In name (input n) -> known ps o name.
Proof.
  revert self. induction fs as [ | f fs IH ]; intros self Hpar Hrun Hinv;
    simpl in Hrun.
  - now injection Hrun as <-.
  - destruct (backward_postprocess env self f) as [self' | e] eqn:Hstep;
      [ | discriminate ].
    simpl in Hrun. apply (IH self').
    + intros g i var Hg. apply Hpar. now right.
    + exact Hrun.
    + apply (backward_postprocess_known self f self'); try assumption.
      intros i var. apply Hpar. now left.
Qed.

End KnownNames.

(** ** The names of the declared inputs *)

Lemma param_value_info_names ps :
  map vi_name (map param_value_info ps) = map (fun p => str (v_id p)) ps.
Proof. now rewrite map_map. Qed.

Lemma additional_value_infos_names ps more :
  additional_value_infos ps = Ok more ->
  map vi_name more = map (fun p => str (param_id p)) ps.
Proof.
  revert more. induction ps as [ | p ps IH ]; intros more H; simpl in H.
  - now injection H as <-.
  - destruct p as [v | arr]; simpl in H; [ | discriminate ].
    destruct (additional_value_infos ps) as [vis | e]; simpl in H;
      [ | discriminate ].
    injection H as <-. simpl. f_equal. now apply IH.
Qed.

Lemma tensor_value_info_names (net : list (string * tensor)) :
  (forall k t, In (k, t) net -> k = str (id_of t)) ->
  map vi_name (map tensor_value_info (dict_values net)) = dict_keys net.
Proof.
  unfold dict_values, dict_keys. rewrite !map_map.
  intro H. apply map_ext_in. intros [k t] Hin. simpl. symmetry. now apply H.
Qed.

(** Every input of every node of a returned graph is a declared input
    of the graph, when the converters name no tensor of their own and
    the parameters the captured functions consume are parameters of the
    model. *)
Theorem node_inputs_are_declared env args filename export_params
    graph_name save_text w m w' :
  (forall name c, functions_attr env name = Some c -> uses_given_names c) ->
  parameters_belong_to env (model w) ->
  export env args filename export_params graph_name save_text w = (Ok m, w') ->
  forall n name, In n (g_node (m_graph m)) -> In name (input n) ->
    In name (declared_inputs (m_graph m)).
Proof.
  intros Hconv Hpar Hexp.
  apply export_Ok_inv in Hexp as (_ & args' & outs & w2 & _ & Hfwd & Hfin).
  apply finish_Ok_inv in Hfin as (o & more & Hrun & Hmore & ->).
  assert (Hps : params (model w2) = params (model w)).
  { destruct (keeps_forward (fun _ => true) args' (fun _ _ => eq_refl)
                (prepared w)) as (_ & Hm & _).
    rewrite Hfwd in Hm. simpl in Hm. now rewrite Hm. }
  rewrite Hps.
  intros n name Hin Hname.
  assert (Hn : In n (graph o)) by (now apply in_rev).
  assert (Hk : known (params (model w)) o name).
  { apply (run_hook_known env (params (model w)) Hconv ONNXExport_init
             (session_calls env outs) o) with (n := n); try assumption.
    - intros f i var Hf. apply session_calls_backward in Hf as [y Hy].
      now apply (Hpar y f).
    - intros ? ? []. }
  unfold declared_inputs. simpl. rewrite !map_app, !in_app_iff.
  rewrite param_value_info_names, (additional_value_infos_names _ _ Hmore).
  rewrite tensor_value_info_names.
  - unfold known in Hk. tauto.
  - intros k t Hin'.
    destruct (run_hook_entries _ _ _ _ _ _ Hrun Hin')
      as [[] | (f & i & _ & _ & -> & -> & _)].
    reflexivity.
Qed.

(** The converters of the scenario name no tensor of their own. *)
Lemma scenario_converters_use_given_names name c :
  Scenario.converters name = Some c -> uses_given_names c.
Proof.
  unfold Scenario.converters.
  destruct (String.eqb name "convert_Mul");
    [ | destruct (String.eqb name "convert_Add"); [ | discriminate ] ];
    intro H; injection H as <-;
    intros f ins outs ps nodes ps' Hc; injection Hc as <- <-;
    (split; [ apply incl_refl | ]);
    intros n nm [<- | []] Hnm; now left.
Qed.

(** The functions of the scenario consume the parameters [a] and [b]
    of its model. *)
Lemma scenario_parameters_belong :
  parameters_belong_to Scenario.env Scenario.chain.
Proof.
  intros y f i var Hf Hi Hv Hp. simpl in Hf.
  destruct (v_id y =? 105); simpl in Hf; [ | destruct Hf ].
  destruct Hf as [<- | [<- | []]]; simpl in Hi;
    destruct Hi as [<- | [<- | []]]; simpl in Hv; try discriminate Hv;
    injection Hv as <-; simpl; try discriminate Hp; tauto.
Qed.

Lemma node_inputs_are_declared_witness :
  exists m w',
    export Scenario.env (PyList [PyArray Scenario.x_array]) FileNone true
      "Graph" false Scenario.world = (Ok m, w') /\
    forall n name, In n (g_node (m_graph m)) -> In name (input n) ->
      In name (declared_inputs (m_graph m)).
Proof.
  eexists. eexists. split.
  - vm_compute. reflexivity.
  - eapply (node_inputs_are_declared Scenario.env
              (PyList [PyArray Scenario.x_array]) FileNone true "Graph" false
              Scenario.world).
    + exact scenario_converters_use_given_names.
    + exact scenario_parameters_belong.
    + vm_compute. reflexivity.
Defined.

(** ** The order of the emitted nodes *)

(** C1, at a model with two outputs over one product: [h = a * x],
    [y = h + b], [z = h * a], returning [(y, z)].  The backward pass of
    [y] captures [Add] and then the multiplication that produces [h];
    the backward pass of [z] captures the second multiplication, and
    the node of the first, returned again, is dropped as a duplicate.
    Reversed, the list starts with the second multiplication: it
    consumes [h] one place before the node that produces [h].  The list
    is not topologically sorted; [h] is found among the declared inputs
    only because the hook registers it as a network input. *)
Theorem emitted_order_two_outputs :
  exists m w',
    export Variants.env_two_outputs (PyList [PyArray Scenario.x_array])
      FileNone true "Graph" false Variants.world_two_outputs = (Ok m, w') /\
    g_node (m_graph m) =
      [ make_node "Mul" [str (n_id Scenario.h_node); str (v_id Scenario.a)]
          [str (n_id Variants.z_node)] [];
        make_node "Mul" [str (v_id Scenario.a); str (v_id Scenario.x)]
          [str (n_id Scenario.h_node)] [];
        make_node "Add" [str (n_id Scenario.h_node); str (v_id Scenario.b)]
          [str (n_id Scenario.y_node)] [] ] /\
    In (FunctionNode Scenario.Mul)
      (session_calls Variants.env_two_outputs
         (OutTuple [Scenario.y; Variants.z])) /\
    In Scenario.h_node (outputs Scenario.Mul) /\
    In (str (n_id Scenario.h_node)) (declared_inputs (m_graph m)) /\
    ~ producers_come_first (m_graph m).
Proof.
  eexists. eexists. split; [ vm_compute; reflexivity | ].
  split; [ reflexivity | ].
  split; [ vm_compute; right; left; reflexivity | ].
  split; [ left; reflexivity | ].
  split; [ vm_compute; right; right; left; reflexivity | ].
  intro H.
  destruct (H [] (make_node "Mul" ["204"; "101"] ["206"] [])
              [ make_node "Mul" ["101"; "103"] ["204"] [];
                make_node "Add" ["204"; "102"] ["205"] [] ]
              eq_refl "204" (or_introl eq_refl)) as (m0 & [] & _).
  exists (make_node "Mul" ["101"; "103"] ["204"] []).
  split; [ right; left; reflexivity | left; reflexivity ].
Qed.

(** ** The scenario y = a * x + b *)

(** C2, as the code has it.  Exporting the model [y = a * x + b] with
    [x] of shape (2, 3) and the initializers enabled returns a graph
    with the two nodes [Mul], [Add] in that order, FOUR declared inputs
    ([a], [b], the product [a * x] consumed by the addition, and [x]),
    the one declared output [y] of shape (2, 3), and the two
    initializers [a] and [b]. *)
Theorem export_scenario :
  exists m w',
    export Scenario.env (PyList [PyArray Scenario.x_array]) FileNone true
      "Graph" false Scenario.world = (Ok m, w') /\
    g_node (m_graph m) =
      [ make_node "Mul" [str (v_id Scenario.a); str (v_id Scenario.x)]
          [str (n_id Scenario.h_node)] [];
        make_node "Add" [str (n_id Scenario.h_node); str (v_id Scenario.b)]
          [str (n_id Scenario.y_node)] [] ] /\
    g_input (m_graph m) =
      [ param_value_info Scenario.a; param_value_info Scenario.b;
        tensor_value_info (TNode Scenario.h_node);
        tensor_value_info (TVar Scenario.x) ] /\
    length (g_input (m_graph m)) = 4%nat /\
    g_output (m_graph m) = [output_value_info Scenario.y] /\
    map vi_shape (g_output (m_graph m)) = [[2; 3]] /\
    g_initializer (m_graph m) =
      [ convert_parameter (ParamVar Scenario.a);
        convert_parameter (ParamVar Scenario.b) ].
Proof.
  eexists. eexists. split; [ vm_compute; reflexivity | ].
  repeat split.
Qed.

(** C2 as stated fails: the graph of the scenario does not have exactly
    three declared inputs. *)
Lemma export_scenario_not_three_inputs :
  exists m w',
    export Scenario.env (PyList [PyArray Scenario.x_array]) FileNone true
      "Graph" false Scenario.world = (Ok m, w') /\
    declared_inputs (m_graph m) = ["101"; "102"; "204"; "103"] /\
    length (g_input (m_graph m)) <> 3%nat.
Proof.
  eexists. eexists. split; [ vm_compute; reflexivity | ].
  split; [ reflexivity | discriminate ].
Qed.

(** ** The dictionary of network inputs *)

(** C3, as the code has it.  Every entry of the dictionary of network
    inputs after a session is registered under the name of its object,
    its object is not a parameter, and it is an input of one of the
    captured functions.  (Whether a captured function produces it is
    not looked at.) *)
Theorem network_inputs_are_consumed_non_parameters env fs o k t :
  run_hook env ONNXExport_init fs = Ok o ->
  In (k, t) (network_inputs o) ->
  k = str (id_of t) /\
  is_Parameter t = false /\
  exists f i, In f fs /\ In i (inputs (unwrap f)) /\
              t = resolved i /\ k = input_name i.
Proof.
  intros Hrun Hin.
  destruct (run_hook_entries _ _ _ _ _ _ Hrun Hin)
    as [[] | (f & i & Hf & Hi & -> & -> & Hp)].
  split; [ reflexivity | split; [ exact Hp | ] ].
  exists f, i. now repeat split.
Qed.

Lemma network_inputs_are_consumed_non_parameters_witness :
  let fs := session_calls Scenario.env (OutVariable Scenario.y) in
  let k := str (n_id Scenario.h_node) in
  let t := TNode Scenario.h_node in
  k = str (id_of t) /\
  is_Parameter t = false /\
  exists f i, In f fs /\ In i (inputs (unwrap f)) /\
              t = resolved i /\ k = input_name i.
Proof.
  refine (network_inputs_are_consumed_non_parameters Scenario.env _
            (mk_ONNXExport _ _ _) _ _ _ _).
  - vm_compute. reflexivity.
  - vm_compute. left. reflexivity.
Defined.

(** C3 as stated fails: in the scenario the product [a * x] is
    registered as a network input, and it is the output of the captured
    multiplication. *)
Lemma network_input_is_output_of_captured_function :
  exists o,
    run_hook Scenario.env ONNXExport_init
      (session_calls Scenario.env (OutVariable Scenario.y)) = Ok o /\
    In (str (n_id Scenario.h_node)) (dict_keys (network_inputs o)) /\
    In (FunctionNode Scenario.Mul)
      (session_calls Scenario.env (OutVariable Scenario.y)) /\
    In (str (n_id Scenario.h_node)) (output_names_of Scenario.Mul).
Proof.
  eexists. split; [ vm_compute; reflexivity | ].
  split; [ | split ].
  - vm_compute. left. reflexivity.
  - vm_compute. right. left. reflexivity.
  - vm_compute. left. reflexivity.
Qed.

(** ** The arguments *)

(** After lines 133-136 [args] is a list, whatever was given. *)
Lemma convert_args_list env args w args' w1 :
  convert_args env args w = (Ok args', w1) -> exists l, args' = PyList l.
Proof.
  unfold convert_args, bind.
  destruct (wrap_args env _ w) as [[l | e] w2]; [ | discriminate ].
  unfold ret. intro H. injection H as <- _. now exists l.
Qed.

(** So the forward pass after them calls the model: the [ValueError]
    of lines 143-146 is not raised. *)
Lemma forward_after_convert_args env args w args' w1 :
  convert_args env args w = (Ok args', w1) ->
  exists l, forward args' = model_call l.
Proof.
  intro H. apply convert_args_list in H as [l ->]. now exists l.
Qed.

(** C4, at a bare array.  Given the array [x] itself as [args], neither
    a list or tuple nor a dict, the export raises nothing: it evaluates
    the model on [x] and returns the graph of the scenario. *)
Theorem export_bare_array_is_forwarded :
  exists m w',
    export Scenario.env (PyArray Scenario.x_array) FileNone true "Graph" false
      Scenario.world = (Ok m, w') /\
    In (EvForward [PyVar Scenario.x]) (trace w') /\
    export Scenario.env (PyList [PyArray Scenario.x_array]) FileNone true
      "Graph" false Scenario.world = (Ok m, w').
Proof.
  eexists. eexists. split; [ vm_compute; reflexivity | ].
  split; [ left; reflexivity | vm_compute; reflexivity ].
Qed.

(** ** An operator without a converter *)


Lemma extends_no_write w w' :
  extends (fun e => negb (is_write e)) w w' ->
  filter is_write (trace w') = filter is_write (trace w).
Proof.
  intros (_ & _ & t & -> & Ht). rewrite filter_app.
  assert (E : filter is_write t = []).
  { induction t as [ | e t IH ]; [ reflexivity | ].
    simpl in *. apply andb_prop in Ht as [He Ht].
    apply negb_true_iff in He. rewrite He. now apply IH. }
  rewrite E. apply app_nil_r.
Qed.




(** ** The names of tensors *)

(** Objects of distinct identity get distinct names: [str] is
    injective. *)
Lemma names_collision_free (t1 t2 : tensor) :
  id_of t1 <> id_of t2 -> str (id_of t1) <> str (id_of t2).
Proof. intros H E. apply H. now apply str_inj. Qed.

(** A node whose [Variable] is alive is named after the [Variable]
    where it is consumed and after itself where it is produced. *)
Lemma input_output_names_differ (i : VariableNode) (var : variable) :
  get_variable_or_none i = Some var -> v_id var <> n_id i ->
  input_name i <> output_name i.
Proof.
  intros Hv Hid. unfold input_name, output_name, resolved. rewrite Hv. simpl.
  intro E. apply Hid. now apply str_inj.
Qed.

(** C6, at the scenario.  One tensor is given two names.  The output
    [y]: the addition that produces it names it after its node (line
    84), the declared graph output after its [Variable] (line 191).  A
    product [h] whose [Variable] is alive: the multiplication that
    produces it names it after its node (line 84), the addition that
    consumes it after its [Variable] (lines 82-83). *)
Theorem tensor_named_twice :
  exists m w',
    export Scenario.env (PyList [PyArray Scenario.x_array]) FileNone true
      "Graph" false Scenario.world = (Ok m, w') /\
    get_variable_or_none Scenario.y_node = Some Scenario.y /\
    map output (g_node (m_graph m)) = [["204"]; ["205"]] /\
    map vi_name (g_output (m_graph m)) = ["105"] /\
    output_names_of Variants.Mul_alive = ["204"] /\
    fst (visit_inputs [] (inputs Variants.Add_alive)) = ["104"; "102"] /\
    output_name Variants.h_node_alive <> input_name Variants.h_node_alive.
Proof.
  eexists. eexists. split; [ vm_compute; reflexivity | ].
  repeat split. vm_compute. discriminate.
Qed.

(** ** Scalar parameters *)

Lemma normalize_shape_idempotent (s : list Z) :
  normalize_shape (normalize_shape s) = normalize_shape s.
Proof. now destruct s. Qed.

Lemma convert_parameter_dims (q : pyparam) :
  t_dims (convert_parameter q) = normalize_shape (param_shape_of q).
Proof.
  unfold convert_parameter, normalize_shape.
  destruct q as [v | arr]; simpl; unfold v_shape;
    [ destruct (a_shape (v_array v)) eqn:E | destruct (a_shape arr) eqn:E ];
    simpl; try rewrite E; reflexivity.
Qed.

(** C7. A parameter of the model with the empty shape is declared with
    the shape (1,) in its entry of the graph inputs and, when the
    parameters are exported, in its initializer; the normalisation of
    the metadata and that of the initializer are the same map on
    shapes, and it is idempotent. *)
Theorem scalar_parameter_normalized env args filename export_params
    graph_name save_text w m w' p :
  export env args filename export_params graph_name save_text w = (Ok m, w') ->
  In p (params (model w)) ->
  v_shape p = [] ->
  In (make_tensor_value_info (str (v_id p))
        (NP_TYPE_TO_TENSOR_TYPE (v_dtype p)) [1])
     (g_input (m_graph m)) /\
  (if export_params
   then In (mk_TensorProto (str (v_id p)) [1]
              (NP_TYPE_TO_TENSOR_TYPE (v_dtype p)) (a_data (v_array p)))
           (g_initializer (m_graph m))
   else g_initializer (m_graph m) = []) /\
  (forall q, t_dims (convert_parameter q) = normalize_shape (param_shape_of q)) /\
  (forall s, normalize_shape (normalize_shape s) = normalize_shape s).
Proof.
  intros Hexp Hin Hshape.
  apply export_Ok_inv in Hexp as (_ & args' & outs & w2 & _ & Hfwd & Hfin).
  apply finish_Ok_inv in Hfin as (o & more & _ & _ & ->).
  assert (Hps : params (model w2) = params (model w)).
  { destruct (keeps_forward (fun _ => true) args' (fun _ _ => eq_refl)
                (prepared w)) as (_ & Hm & _).
    rewrite Hfwd in Hm. simpl in Hm. now rewrite Hm. }
  rewrite Hps. simpl.
  split; [ | split; [ | split ] ].
  - rewrite !in_app_iff. left; left.
    apply in_map_iff. exists p. split; [ | exact Hin ].
    unfold param_value_info, v_dtype. now rewrite Hshape.
  - destruct export_params; [ | reflexivity ].
    rewrite in_app_iff. left.
    apply in_map_iff. exists p. split; [ | exact Hin ].
    unfold convert_parameter, from_array, v_shape in *. simpl.
    now rewrite Hshape.
  - exact convert_parameter_dims.
  - exact normalize_shape_idempotent.
Qed.

Lemma scalar_parameter_normalized_witness :
  exists m w',
    export Variants.env_scalar (PyList [PyArray Scenario.x_array]) FileNone
      true "Graph" false Variants.world_scalar = (Ok m, w') /\
    In (make_tensor_value_info "112" 1 [1]) (g_input (m_graph m)) /\
    In (mk_TensorProto "112" [1] 1 [5]) (g_initializer (m_graph m)) /\
    (forall q, t_dims (convert_parameter q) = normalize_shape (param_shape_of q)) /\
    (forall s, normalize_shape (normalize_shape s) = normalize_shape s).
Proof.
  eexists. eexists. split; [ vm_compute; reflexivity | ].
  refine (scalar_parameter_normalized Variants.env_scalar
            (PyList [PyArray Scenario.x_array]) FileNone true "Graph" false
            Variants.world_scalar _ _ Variants.b0 _ _ _).
  - vm_compute. reflexivity.
  - right. left. reflexivity.
  - reflexivity.
Defined.

(** ** Duplicates *)

Lemma run_hook_graph env self fs o :
  run_hook env self fs = Ok o ->
  (NoDup (graph self) -> NoDup (graph o)) /\
  (forall n, In n (graph self) -> In n (graph o)) /\
  (forall n, In n (produced env self fs) -> In n (graph o)).
Proof.
  revert self. induction fs as [ | f fs IH ]; intros self Hrun; simpl in Hrun.
  - injection Hrun as <-. repeat split; auto. intros n [].
  - destruct (backward_postprocess env self f) as [self' | e] eqn:Hstep;
      [ | discriminate ].
    simpl in Hrun. destruct (IH _ Hrun) as (Hnd & Hmono & Hprod).
    pose proof (backward_postprocess_Ok _ _ _ _ Hstep)
      as (c & nodes & _ & _ & _ & Hconv & Hgraph & _).
    repeat split.
    + intro H. apply Hnd. rewrite Hgraph. now apply append_new_NoDup.
    + intros n H. apply Hmono. rewrite Hgraph. apply append_new_In. now left.
    + intros n. simpl. rewrite Hconv, Hstep, in_app_iff. intros [H | H].
      * apply Hmono. rewrite Hgraph. apply append_new_In. now right.
      * now apply Hprod.
Qed.

(** C8. A node descriptor that the converters return during a
    session, once or several times, occurs exactly once in the graph
    the export returns. *)
Theorem export_deduplicates env args filename export_params graph_name
    save_text w args' outs w2 m w' n :
  convert_args env args (prepared w) = (Ok args', prepared w) ->
  forward args' (prepared w) = (Ok outs, w2) ->
  export env args filename export_params graph_name save_text w = (Ok m, w') ->
  (1 <= count_occ NodeProto_eq_dec
          (produced env ONNXExport_init (session_calls env outs)) n)%nat ->
  count_occ NodeProto_eq_dec (g_node (m_graph m)) n = 1%nat.
Proof.
  intros Hargs Hfwd Hexp Hn.
  apply export_Ok_inv in Hexp as (_ & args0 & outs0 & w0 & Hargs0 & Hfwd0 & Hfin).
  rewrite Hargs in Hargs0. injection Hargs0 as <-.
  rewrite Hfwd in Hfwd0. injection Hfwd0 as <- <-.
  apply finish_Ok_inv in Hfin as (o & more & Hrun & _ & ->). simpl.
  destruct (run_hook_graph _ _ _ _ Hrun) as (Hnd & _ & Hprod).
  apply (proj1 (NoDup_count_occ' NodeProto_eq_dec (rev (graph o)))).
  - apply NoDup_rev. apply Hnd. constructor.
  - rewrite <- in_rev. apply Hprod.
    apply (count_occ_In NodeProto_eq_dec). lia.
Qed.

Lemma export_deduplicates_witness :
  let mul := make_node "Mul" ["101"; "103"] ["204"] [] in
  exists m w',
    export Variants.env_two_outputs (PyList [PyArray Scenario.x_array])
      FileNone true "Graph" false Variants.world_two_outputs = (Ok m, w') /\
    count_occ NodeProto_eq_dec
      (produced Variants.env_two_outputs ONNXExport_init
         (session_calls Variants.env_two_outputs
            (OutTuple [Scenario.y; Variants.z]))) mul = 2%nat /\
    count_occ NodeProto_eq_dec (g_node (m_graph m)) mul = 1%nat.
Proof.
  eexists. eexists. split; [ vm_compute; reflexivity | ].
  split; [ vm_compute; reflexivity | ].
  refine (export_deduplicates Variants.env_two_outputs
            (PyList [PyArray Scenario.x_array]) FileNone true "Graph" false
            Variants.world_two_outputs (PyList [PyVar Scenario.x])
            (OutTuple [Scenario.y; Variants.z]) _ _ _ _ _ _ _ _).
  - vm_compute. reflexivity.
  - vm_compute. reflexivity.
  - vm_compute. reflexivity.
  - vm_compute. lia.
Defined.

(** ** What an export changes outside its session *)

Lemma keeps_finish Q env outs filename export_params graph_name save_text :
  keeps Q (capture env outs) ->
  (forall e, is_write e = true -> Q e = true) ->
  keeps Q (finish env outs filename export_params graph_name save_text).
Proof.
  intros Hcap HQ. unfold finish.
  apply keeps_bind; [ apply keeps_model_params | intro ps ].
  apply keeps_bind; [ exact Hcap | intro o ].
  apply keeps_bind; [ apply keeps_lift | intro more ].
  apply keeps_bind; [ apply keeps_check | intros _ ].
  apply keeps_bind; [ apply keeps_check | intros _ ].
  apply keeps_bind; [ now apply keeps_save | intros _ ].
  apply keeps_ret.
Qed.

Lemma export_world env args filename export_params graph_name save_text w :
  snd (export env args filename export_params graph_name save_text w) =
  if onnx_available env
  then snd ((args' <- convert_args env args ;;
             outs <- forward args' ;;
             finish env outs filename export_params graph_name save_text)%export
            (prepared w))
  else w.
Proof.
  rewrite export_unfold. unfold bind at 1. unfold _check_available.
  destruct (onnx_available env); reflexivity.
Qed.

(** C9, as the code has it.  An export leaves the parameters of the
    model as they are.  Outside its session object it sets
    [enable_backprop] to [True], and leaves it so, and moves the model
    to the CPU, unless the onnx package is missing. *)
Theorem export_outside_effects env args filename export_params graph_name
    save_text w :
  let w' := snd (export env args filename export_params graph_name save_text w)
  in
  params (model w') = params (model w) /\
  enable_backprop w' = (if onnx_available env then true else enable_backprop w) /\
  on_gpu (model w') = (if onnx_available env then false else on_gpu (model w)).
Proof.
  intro w'. subst w'. rewrite export_world.
  destruct (onnx_available env); [ | now repeat split ].
  match goal with |- context [snd (?c (prepared w))] =>
    assert (H : keeps (fun _ => true) c) end.
  { apply keeps_bind; [ apply keeps_convert_args | intro args' ].
    apply keeps_bind; [ now apply keeps_forward | intro outs ].
    apply keeps_finish; [ now apply keeps_capture | reflexivity ]. }
  destruct (H (prepared w)) as (He & Hm & _).
  rewrite He, Hm. now repeat split.
Qed.

(** C9 as stated fails: the export of the scenario starts with
    [enable_backprop] unset and ends with it set. *)
Lemma export_sets_enable_backprop :
  exists r w',
    export Scenario.env (PyList [PyArray Scenario.x_array]) FileNone true
      "Graph" false Scenario.world = (r, w') /\
    enable_backprop Scenario.world = false /\
    enable_backprop w' = true /\
    ~ outside_unchanged Scenario.world w'.
Proof.
  eexists. eexists. split; [ vm_compute; reflexivity | ].
  split; [ reflexivity | split; [ reflexivity | ] ].
  intros (H & _). discriminate H.
Qed.

(** ** A model that returns a dict *)

Lemma extends_no_backward w w' :
  extends (fun e => negb (is_backward e)) w w' ->
  filter is_backward (trace w') = filter is_backward (trace w).
Proof.
  intros (_ & _ & t & -> & Ht). rewrite filter_app.
  assert (E : filter is_backward t = []).
  { induction t as [ | e t IH ]; [ reflexivity | ].
    simpl in *. apply andb_prop in Ht as [He Ht].
    apply negb_true_iff in He. rewrite He. now apply IH. }
  rewrite E. apply app_nil_r.
Qed.

(** Writing raises nothing in this model. *)
Lemma save_returns filename save_text m w :
  fst (save filename save_text m w) = Ok tt.
Proof. destruct filename; try reflexivity. now destruct save_text. Qed.


(* ================================================================== *)
(** * Further properties of the exporter *)
(* ================================================================== *)

(** ** What a returned model is made of *)

Lemma forward_model args w outs w2 :
  forward args (prepared w) = (Ok outs, w2) ->
  params (model w2) = params (model w).
Proof.
  intro Hfwd.
  destruct (keeps_forward (fun _ => true) args (fun _ _ => eq_refl)
              (prepared w)) as (_ & Hm & _).
  rewrite Hfwd in Hm. simpl in Hm. now rewrite Hm.
Qed.

Lemma export_Ok_staged env args filename export_params graph_name save_text
    w args' outs w2 m w' :
  convert_args env args (prepared w) = (Ok args', prepared w) ->
  forward args' (prepared w) = (Ok outs, w2) ->
  export env args filename export_params graph_name save_text w = (Ok m, w') ->
  exists o more,
    run_hook env ONNXExport_init (session_calls env outs) = Ok o /\
    additional_value_infos (additional_parameters o) = Ok more /\
    m = assembled env (params (model w)) o more outs export_params graph_name.
Proof.
  intros Hargs Hfwd Hexp.
  apply export_Ok_inv in Hexp as (_ & args0 & outs0 & w0 & Hargs0 & Hfwd0 & Hfin).
  rewrite Hargs in Hargs0. injection Hargs0 as <-.
  rewrite Hfwd in Hfwd0. injection Hfwd0 as <- <-.
  apply finish_Ok_inv in Hfin as (o & more & Hrun & Hmore & ->).
  rewrite (forward_model _ _ _ _ Hfwd). now exists o, more.
Qed.

(** Without the onnx package an export raises [ImportError] at once:
    the flag, the model and the trace are as before. *)
Theorem export_without_onnx env args filename export_params graph_name
    save_text w :
  onnx_available env = false ->
  exists msg,
    export env args filename export_params graph_name save_text w =
    (Raise (ImportError msg), w).
Proof.
  intro H. rewrite export_unfold. unfold bind at 1, _check_available.
  rewrite H. eexists. reflexivity.
Qed.

Lemma export_without_onnx_witness :
  exists msg,
    export Faults.env_without_onnx (PyList [PyArray Scenario.x_array])
      (FilePath "model.onnx") true "Graph" true Scenario.world =
    (Raise (ImportError msg), Scenario.world).
Proof.
  exact (export_without_onnx Faults.env_without_onnx
           (PyList [PyArray Scenario.x_array]) (FilePath "model.onnx") true
           "Graph" true Scenario.world eq_refl).
Defined.

(** The wrapper of a returned model: the producer is "Chainer" with
    the version of the framework, the IR version is that of the onnx
    package, and the graph carries the name given to [export]. *)
Theorem export_model_metadata env args filename export_params graph_name
    save_text w m w' :
  export env args filename export_params graph_name save_text w = (Ok m, w') ->
  producer_name m = "Chainer" /\
  producer_version m = chainer_version env /\
  ir_version m = IR_VERSION env /\
  g_name (m_graph m) = graph_name.
Proof.
  intro Hexp.
  apply export_Ok_inv in Hexp as (_ & args' & outs & w2 & _ & _ & Hfin).
  apply finish_Ok_inv in Hfin as (o & more & _ & _ & ->).
  now repeat split.
Qed.

Lemma export_model_metadata_witness :
  exists m w',
    export Scenario.env (PyList [PyArray Scenario.x_array]) FileNone true
      "Net" false Scenario.world = (Ok m, w') /\
    producer_name m = "Chainer" /\
    producer_version m = "4.0.0" /\
    ir_version m = 3 /\
    g_name (m_graph m) = "Net".
Proof.
  eexists. eexists. split; [ vm_compute; reflexivity | ].
  refine (export_model_metadata Scenario.env
            (PyList [PyArray Scenario.x_array]) FileNone true "Net" false
            Scenario.world _ _ _).
  vm_compute. reflexivity.
Defined.

(** ** The checks a returned model has passed *)

Lemma check_nodes_Ok env nodes :
  check_nodes env nodes = Ok tt ->
  forall n, In n nodes -> check_node env n = None.
Proof.
  induction nodes as [ | node rest IH ]; simpl; intros H n Hn.
  - destruct Hn.
  - destruct (check_node env node) as [e | ] eqn:E; [ discriminate | ].
    destruct Hn as [<- | Hn]; [ exact E | now apply IH ].
Qed.

Lemma run_hook_checked env self fs o :
  run_hook env self fs = Ok o ->
  (forall n, In n (graph self) -> check_node env n = None) ->
  forall n, In n (graph o) -> check_node env n = None.
Proof.
  revert self. induction fs as [ | f fs IH ]; intros self Hrun Hinv;
    simpl in Hrun.
  - now injection Hrun as <-.
  - destruct (backward_postprocess env self f) as [self' | e] eqn:Hstep;
      [ | discriminate ].
    simpl in Hrun. apply (IH self' Hrun).
    apply backward_postprocess_Ok in Hstep
      as (c & nodes & _ & _ & Hck & _ & Hgraph & _).
    intros n Hn. rewrite Hgraph in Hn.
    apply append_new_In in Hn as [Hn | Hn];
      [ now apply Hinv | now apply (check_nodes_Ok env nodes) ].
Qed.

Lemma finish_checked env outs filename export_params graph_name save_text
    w m w' :
  finish env outs filename export_params graph_name save_text w = (Ok m, w') ->
  check_graph env (m_graph m) = None /\ check_model env m = None.
Proof.
  unfold finish. unfold bind at 1. simpl. unfold bind at 1.
  destruct (capture env outs w) as [[o | e] w3]; [ | discriminate ].
  unfold bind at 1. unfold lift at 1.
  destruct (additional_value_infos (additional_parameters o)) as [more | e];
    [ | discriminate ].
  unfold bind at 1.
  destruct (check_graph env _) as [e | ] eqn:Hg; [ discriminate | ].
  simpl. unfold bind at 1.
  destruct (check_model env _) as [e | ] eqn:Hm; [ discriminate | ].
  simpl. unfold bind at 1.
  destruct (save filename save_text _ w3) as [[[] | e] w6]; [ | discriminate ].
  unfold ret. intro H. injection H as <- <-. now split.
Qed.

(** A model that [export] returns has passed every check: each of its
    nodes [check_node], its graph [check_graph], and the model itself
    [check_model]. *)
Theorem export_returns_checked_model env args filename export_params
    graph_name save_text w m w' :
  export env args filename export_params graph_name save_text w = (Ok m, w') ->
  (forall n, In n (g_node (m_graph m)) -> check_node env n = None) /\
  check_graph env (m_graph m) = None /\
  check_model env m = None.
Proof.
  intro Hexp.
  apply export_Ok_inv in Hexp as (_ & args' & outs & w2 & _ & _ & Hfin).
  split; [ | exact (finish_checked _ _ _ _ _ _ _ _ _ Hfin) ].
  apply finish_Ok_inv in Hfin as (o & more & Hrun & _ & ->). simpl.
  intros n Hn. apply in_rev in Hn.
  apply (run_hook_checked _ _ _ _ Hrun); [ intros ? [] | exact Hn ].
Qed.

Lemma export_returns_checked_model_witness :
  exists m w',
    export Scenario.env (PyList [PyArray Scenario.x_array]) FileNone true
      "Graph" false Scenario.world = (Ok m, w') /\
    (forall n, In n (g_node (m_graph m)) -> check_node Scenario.env n = None) /\
    check_graph Scenario.env (m_graph m) = None /\
    check_model Scenario.env m = None.
Proof.
  eexists. eexists. split; [ vm_compute; reflexivity | ].
  refine (export_returns_checked_model Scenario.env
            (PyList [PyArray Scenario.x_array]) FileNone true "Graph" false
            Scenario.world _ _ _).
  vm_compute. reflexivity.
Defined.

(** ** Exporting without the parameters *)

(** With [export_params] unset the model has the nodes, the inputs,
    the outputs and the name of the model exported with it set, and no
    initializer. *)
Theorem export_without_params env args filename graph_name save_text
    w m1 w1 m2 w2 :
  export env args filename true graph_name save_text w = (Ok m1, w1) ->
  export env args filename false graph_name save_text w = (Ok m2, w2) ->
  g_node (m_graph m2) = g_node (m_graph m1) /\
  g_input (m_graph m2) = g_input (m_graph m1) /\
  g_output (m_graph m2) = g_output (m_graph m1) /\
  g_name (m_graph m2) = g_name (m_graph m1) /\
  g_initializer (m_graph m2) = [].
Proof.
  intros H1 H2.
  apply export_Ok_inv in H1 as (_ & args1 & outs1 & u1 & Ha1 & Hf1 & Hfin1).
  apply export_Ok_inv in H2 as (_ & args2 & outs2 & u2 & Ha2 & Hf2 & Hfin2).
  rewrite Ha1 in Ha2. injection Ha2 as <-.
  rewrite Hf1 in Hf2. injection Hf2 as <- <-.
  apply finish_Ok_inv in Hfin1 as (o1 & more1 & Hr1 & Hm1 & ->).
  apply finish_Ok_inv in Hfin2 as (o2 & more2 & Hr2 & Hm2 & ->).
  rewrite Hr1 in Hr2. injection Hr2 as <-.
  rewrite Hm1 in Hm2. injection Hm2 as <-.
  now repeat split.
Qed.

Lemma export_without_params_witness :
  exists m1 w1 m2 w2,
    export Scenario.env (PyList [PyArray Scenario.x_array]) FileNone true
      "Graph" false Scenario.world = (Ok m1, w1) /\
    export Scenario.env (PyList [PyArray Scenario.x_array]) FileNone false
      "Graph" false Scenario.world = (Ok m2, w2) /\
    g_node (m_graph m2) = g_node (m_graph m1) /\
    g_input (m_graph m2) = g_input (m_graph m1) /\
    g_output (m_graph m2) = g_output (m_graph m1) /\
    g_name (m_graph m2) = g_name (m_graph m1) /\
    g_initializer (m_graph m2) = [].
Proof.
  eexists. eexists. eexists. eexists.
  split; [ vm_compute; reflexivity | ].
  split; [ vm_compute; reflexivity | ].
  refine (export_without_params Scenario.env
            (PyList [PyArray Scenario.x_array]) FileNone "Graph" false
            Scenario.world _ _ _ _ _ _); vm_compute; reflexivity.
Defined.

(** ** Initializers and declared inputs *)

Lemma convert_parameter_value_info (v : variable) :
  value_info_of (convert_parameter (ParamVar v)) = param_value_info v.
Proof.
  unfold value_info_of, convert_parameter, param_value_info, normalize_shape,
    v_shape. simpl.
  now destruct (shape_is_empty (a_shape (v_array v))).
Qed.

Lemma additional_value_infos_In ps more p :
  additional_value_infos ps = Ok more -> In p ps ->
  In (value_info_of (convert_parameter p)) more.
Proof.
  revert more. induction ps as [ | q ps IH ]; intros more H Hin; simpl in H.
  - destruct Hin.
  - destruct q as [v | arr]; simpl in H; [ | discriminate ].
    destruct (additional_value_infos ps) as [vis | e]; simpl in H;
      [ | discriminate ].
    injection H as <-. destruct Hin as [<- | Hin].
    + left. symmetry. apply convert_parameter_value_info.
    + right. now apply IH.
Qed.

(** Every initializer of a returned model has its entry among the
    declared inputs of the graph: the same name, element type and
    shape. *)
Theorem initializers_are_declared_inputs env args filename export_params
    graph_name save_text w m w' t :
  export env args filename export_params graph_name save_text w = (Ok m, w') ->
  In t (g_initializer (m_graph m)) ->
  In (value_info_of t) (g_input (m_graph m)).
Proof.
  intros Hexp Ht.
  apply export_Ok_inv in Hexp as (_ & args' & outs & w2 & _ & _ & Hfin).
  apply finish_Ok_inv in Hfin as (o & more & _ & Hmore & ->).
  simpl in *. destruct export_params; [ | destruct Ht ].
  rewrite !in_app_iff. apply in_app_iff in Ht as [Ht | Ht].
  - left; left. apply in_map_iff in Ht as (p & <- & Hp).
    rewrite convert_parameter_value_info. now apply in_map.
  - left; right. apply in_map_iff in Ht as (p & <- & Hp).
    now apply (additional_value_infos_In (additional_parameters o)).
Qed.

Lemma initializers_are_declared_inputs_witness :
  exists m w',
    export Variants.env_scalar (PyList [PyArray Scenario.x_array]) FileNone
      true "Graph" false Variants.world_scalar = (Ok m, w') /\
    In (make_tensor_value_info "112" 1 [1]) (g_input (m_graph m)).
Proof.
  eexists. eexists. split; [ vm_compute; reflexivity | ].
  refine (initializers_are_declared_inputs Variants.env_scalar
            (PyList [PyArray Scenario.x_array]) FileNone true "Graph" false
            Variants.world_scalar _ _ (mk_TensorProto "112" [1] 1 [5]) _ _).
  - vm_compute. reflexivity.
  - right. left. reflexivity.
Defined.

(** ** The effects of an export, in order *)

Lemma forward_list l w :
  forward (PyList l) w =
  (call (model w) l,
   mk_World (enable_backprop w) (model w) (trace w ++ [EvForward l])).
Proof. reflexivity. Qed.

Lemma backward_each_trace env o l w o' w' :
  backward_each env o l w = (Ok o', w') ->
  trace w' = trace w ++ flat_map (fun y => [EvSetGrad y; EvBackward y]) l.
Proof.
  revert o w. induction l as [ | y l IH ]; intros o w H; simpl in H.
  - injection H as _ <-. now rewrite app_nil_r.
  - unfold bind at 1 in H. unfold backward_under, bind, emit, lift in H.
    simpl in H.
    destruct (run_hook env o (backward env y)) as [o1 | e]; [ | discriminate ].
    apply IH in H. rewrite H. simpl. now rewrite <- !app_assoc.
Qed.

Lemma capture_trace env outs w o w' :
  capture env outs w = (Ok o, w') ->
  trace w' = trace w ++ backward_effects outs.
Proof.
  destruct outs as [l | l | y | d]; simpl; intro H.
  - now apply backward_each_trace in H.
  - now apply backward_each_trace in H.
  - unfold backward_under, bind, emit, lift in H. simpl in H.
    destruct (run_hook env ONNXExport_init (backward env y)); [ | discriminate ].
    injection H as _ <-. simpl. now rewrite <- app_assoc.
  - injection H as _ <-. now rewrite app_nil_r.
Qed.

Lemma save_trace filename save_text m w :
  trace (snd (save filename save_text m w)) =
  trace w ++ write_effects filename save_text m.
Proof.
  destruct filename as [ | path | fp | ]; simpl;
    try (now rewrite app_nil_r); try reflexivity.
  destruct save_text; simpl; [ now rewrite <- app_assoc | reflexivity ].
Qed.

Lemma finish_trace env outs filename export_params graph_name save_text
    w m w' :
  finish env outs filename export_params graph_name save_text w = (Ok m, w') ->
  trace w' =
  trace w ++ backward_effects outs ++ write_effects filename save_text m.
Proof.
  unfold finish. unfold bind at 1. simpl. unfold bind at 1.
  destruct (capture env outs w) as [[o | e] w3] eqn:Hcap; [ | discriminate ].
  apply capture_trace in Hcap.
  unfold bind at 1. unfold lift at 1.
  destruct (additional_value_infos (additional_parameters o)) as [more | e];
    [ | discriminate ].
  unfold bind at 1.
  destruct (check_graph env _) as [e | ]; [ discriminate | ].
  simpl. unfold bind at 1.
  destruct (check_model env _) as [e | ]; [ discriminate | ].
  simpl. unfold bind at 1.
  match goal with |- context [save filename save_text ?m0 w3] =>
    pose proof (save_trace filename save_text m0 w3) as Hs;
    destruct (save filename save_text m0 w3) as [[[] | e] w6]
  end; [ | discriminate ].
  unfold ret. intro H. injection H as <- <-. simpl in Hs.
  now rewrite Hs, Hcap, <- app_assoc.
Qed.

(** What a successful export has done, in order: one forward
    evaluation of the model on the list of arguments; then, for each
    output it traverses in turn, the gradient set and the backward pass
    run; then the writes for the destination, of the very model it
    returns.  The declared outputs are those the evaluation returned. *)
Theorem export_trace env args filename export_params graph_name save_text
    w m w' :
  export env args filename export_params graph_name save_text w = (Ok m, w') ->
  exists l outs,
    call (model w) l = Ok outs /\
    g_output (m_graph m) = map output_value_info (outputs_sequence outs) /\
    trace w' =
    trace w ++ [EvForward l] ++ backward_effects outs ++
    write_effects filename save_text m.
Proof.
  intro Hexp.
  apply export_Ok_inv in Hexp as (_ & args' & outs & w2 & Hargs & Hfwd & Hfin).
  destruct (convert_args_list _ _ _ _ _ Hargs) as [l ->].
  rewrite forward_list in Hfwd. injection Hfwd as Hcall <-.
  exists l, outs. split; [ exact Hcall | ].
  pose proof (finish_trace _ _ _ _ _ _ _ _ _ Hfin) as Ht.
  apply finish_Ok_inv in Hfin as (o & more & _ & _ & ->).
  split; [ reflexivity | ]. rewrite Ht. simpl. now rewrite <- app_assoc.
Qed.

Lemma export_trace_witness :
  exists m w',
    export Variants.env_two_outputs (PyList [PyArray Scenario.x_array])
      (FilePath "model.onnx") true "Graph" true Variants.world_two_outputs
      = (Ok m, w') /\
    exists l outs,
      call (model Variants.world_two_outputs) l = Ok outs /\
      g_output (m_graph m) = map output_value_info (outputs_sequence outs) /\
      trace w' =
      trace Variants.world_two_outputs ++ [EvForward l] ++
      backward_effects outs ++ write_effects (FilePath "model.onnx") true m.
Proof.
  eexists. eexists. split; [ vm_compute; reflexivity | ].
  refine (export_trace Variants.env_two_outputs
            (PyList [PyArray Scenario.x_array]) (FilePath "model.onnx") true
            "Graph" true Variants.world_two_outputs _ _ _).
  vm_compute. reflexivity.
Defined.

(** ** An export that fails *)

Lemma finish_Raise_no_write env outs filename export_params graph_name
    save_text w e w' :
  finish env outs filename export_params graph_name save_text w
    = (Raise e, w') ->
  extends (fun ev => negb (is_write ev)) w w'.
Proof.
  unfold finish. unfold bind at 1. simpl. unfold bind at 1.
  pose proof (keeps_capture (fun ev => negb (is_write ev)) env outs
                (fun _ => conj eq_refl eq_refl) w) as Hcap.
  destruct (capture env outs w) as [[o | e1] w3]; simpl in Hcap;
    [ | intro H; injection H as _ <-; exact Hcap ].
  unfold bind at 1. unfold lift at 1.
  destruct (additional_value_infos (additional_parameters o)) as [more | e1];
    [ | intro H; injection H as _ <-; exact Hcap ].
  unfold bind at 1.
  destruct (check_graph env _) as [e1 | ];
    [ simpl; intro H; injection H as _ <-; exact Hcap | ].
  simpl. unfold bind at 1.
  destruct (check_model env _) as [e1 | ];
    [ simpl; intro H; injection H as _ <-; exact Hcap | ].
  simpl. unfold bind at 1.
  match goal with |- context [save filename save_text ?m0 w3] =>
    pose proof (save_returns filename save_text m0 w3) as Hs;
    destruct (save filename save_text m0 w3) as [r w6]
  end.
  simpl in Hs. subst r. discriminate.
Qed.

(** An export that raises has written nothing, to no destination. *)
Theorem export_failure_writes_nothing env args filename export_params
    graph_name save_text w e w' :
  export env args filename export_params graph_name save_text w
    = (Raise e, w') ->
  filter is_write (trace w') = filter is_write (trace w).
Proof.
  rewrite export_unfold. unfold bind at 1, _check_available.
  destruct (onnx_available env);
    [ | unfold raise; intro H; now injection H as _ <- ].
  simpl. unfold bind at 1. simpl. unfold bind at 1. simpl.
  fold (prepared w). unfold bind at 1.
  pose proof (convert_args_world env args (prepared w)) as Hw.
  destruct (convert_args env args (prepared w)) as [[args' | e1] w1] eqn:Hargs;
    simpl in Hw; subst w1; [ | intro H; now injection H as _ <- ].
  destruct (convert_args_list _ _ _ _ _ Hargs) as [l ->].
  unfold bind at 1. rewrite forward_list.
  change (trace w) with (trace (prepared w)).
  set (w2 := mk_World _ _ _).
  assert (H2 : extends (fun ev => negb (is_write ev)) (prepared w) w2).
  { repeat split. exists [EvForward l]. now split. }
  destruct (call (model (prepared w)) l) as [outs | e1];
    [ | intro H; injection H as _ <-; now apply extends_no_write ].
  intro H. apply finish_Raise_no_write in H.
  apply extends_no_write. now apply (extends_trans _ _ w2).
Qed.

Lemma export_failure_writes_nothing_witness :
  exists e w',
    export Variants.env_without_Add (PyList [PyArray Scenario.x_array])
      (FilePath "model.onnx") true "Graph" true Scenario.world
      = (Raise e, w') /\
    filter is_write (trace w') = [].
Proof.
  eexists. eexists. split; [ vm_compute; reflexivity | ].
  refine (export_failure_writes_nothing Variants.env_without_Add
            (PyList [PyArray Scenario.x_array]) (FilePath "model.onnx") true
            "Graph" true Scenario.world _ _ _).
  vm_compute. reflexivity.
Defined.

(** ** The arguments, once more *)

Lemma extends_filter (P : effect -> bool) w w' :
  extends (fun ev => negb (P ev)) w w' ->
  filter P (trace w') = filter P (trace w).
Proof.
  intros (_ & _ & t & -> & Ht). rewrite filter_app.
  assert (E : filter P t = []).
  { induction t as [ | ev t IH ]; [ reflexivity | ].
    simpl in *. apply andb_prop in Ht as [He Ht].
    apply negb_true_iff in He. rewrite He. now apply IH. }
  rewrite E. apply app_nil_r.
Qed.

(** Whatever is given as [args], also a dict, the model is never
    called with keyword arguments. *)
Theorem export_never_calls_with_keywords env args filename export_params
    graph_name save_text w :
  filter is_forward_kw
    (trace (snd (export env args filename export_params graph_name save_text w)))
  = filter is_forward_kw (trace w).
Proof.
  rewrite export_world. destruct (onnx_available env); [ | reflexivity ].
  change (trace w) with (trace (prepared w)).
  apply extends_filter. unfold bind at 1.
  pose proof (convert_args_world env args (prepared w)) as Hw.
  destruct (convert_args env args (prepared w)) as [[args' | e] w1] eqn:Hargs;
    simpl in Hw; subst w1; [ | apply extends_refl ].
  destruct (convert_args_list _ _ _ _ _ Hargs) as [l ->].
  unfold bind at 1. rewrite forward_list.
  set (w2 := mk_World _ _ _).
  assert (H2 : extends (fun ev => negb (is_forward_kw ev)) (prepared w) w2).
  { repeat split. exists [EvForward l]. now split. }
  destruct (call (model (prepared w)) l) as [outs | e]; [ | exact H2 ].
  apply (extends_trans _ _ w2); [ exact H2 | ].
  apply keeps_finish.
  - now apply keeps_capture.
  - intros []; simpl; congruence.
Qed.

Lemma wrap_args_world env args w : snd (wrap_args env args w) = w.
Proof.
  destruct (keeps_wrap_args (fun _ => false) env args w)
    as (He & Hm & t & Ht & Hq).
  destruct t as [ | ev t ]; [ | discriminate ].
  rewrite app_nil_r in Ht.
  destruct (snd (wrap_args env args w)) as [e' m' t'], w as [e0 m0 t0].
  simpl in *. congruence.
Qed.

Lemma wrap_args_unconvertible env pre a post e w :
  Forall (fun p => exists v, p = PyVar v \/ Variable_new env p = Ok v) pre ->
  (forall v, a <> PyVar v) ->
  Variable_new env a = Raise e ->
  wrap_args env (pre ++ a :: post) w = (Raise e, w).
Proof.
  intros Hpre Ha He. induction Hpre as [ | p pre (v & Hp) _ IH ]; simpl.
  - unfold bind at 1.
    destruct a; try (unfold lift; rewrite He; reflexivity).
    now contradiction (Ha v).
  - unfold bind at 1.
    assert (Hstep : exists p',
      match p with
      | PyVar _ => ret p
      | _ => lift (rbind (Variable_new env p) (fun v0 => Ok (PyVar v0)))
      end w = (Ok p', w)).
    { destruct Hp as [-> | Hp]; [ now exists (PyVar v) | ].
      destruct p; try (exists (PyVar v); unfold lift; now rewrite Hp).
      eexists. reflexivity. }
    destruct Hstep as [p' ->]. unfold bind at 1. now rewrite IH.
Qed.

(** When [chainer.Variable] refuses one of the arguments, the export
    raises its error before the model is evaluated: the trace is as
    before, and [enable_backprop] is already set. *)
Theorem export_unconvertible_argument env pre a post filename export_params
    graph_name save_text w e :
  onnx_available env = true ->
  Forall (fun p => exists v, p = PyVar v \/ Variable_new env p = Ok v) pre ->
  (forall v, a <> PyVar v) ->
  Variable_new env a = Raise e ->
  export env (PyList (pre ++ a :: post)) filename export_params graph_name
    save_text w = (Raise e, prepared w).
Proof.
  intros Hav Hpre Ha He. rewrite export_unfold.
  unfold bind at 1. unfold _check_available. rewrite Hav. simpl.
  unfold bind at 1. simpl. unfold bind at 1. simpl.
  fold (prepared w). unfold bind at 1. unfold convert_args, bind.
  now rewrite (wrap_args_unconvertible env pre a post e _ Hpre Ha He).
Qed.

Lemma export_unconvertible_argument_witness :
  export Faults.env_failing_Variable
    (PyList [PyVar Scenario.x; PyArray Scenario.x_array; PyNone])
    (FilePath "model.onnx") true "Graph" false Scenario.world =
  (Raise (ForeignError "TypeError"),
   mk_World true Scenario.chain []).
Proof.
  refine (export_unconvertible_argument Faults.env_failing_Variable
            [PyVar Scenario.x] (PyArray Scenario.x_array) [PyNone]
            (FilePath "model.onnx") true "Graph" false Scenario.world
            (ForeignError "TypeError") eq_refl _ _ eq_refl).
  - constructor; [ | constructor ]. exists Scenario.x. now left.
  - discriminate.
Defined.

(** ** An array among the additional parameters *)

Lemma additional_value_infos_array ps arr :
  In (ParamArray arr) ps ->
  additional_value_infos ps =
  Raise (AttributeError "'numpy.ndarray' object has no attribute 'array'").
Proof.
  induction ps as [ | p ps IH ]; intro Hin; [ destruct Hin | ].
  destruct Hin as [-> | Hin]; simpl; [ reflexivity | ].
  destruct p as [v | arr']; [ | reflexivity ]. simpl. now rewrite IH.
Qed.

(** [convert_parameter] takes a bare array, but [export] does not: if
    a converter has left one among the additional parameters, the
    export raises [AttributeError] after the capture. *)
Theorem export_array_parameter env args filename export_params graph_name
    save_text w args' outs w2 o arr :
  onnx_available env = true ->
  convert_args env args (prepared w) = (Ok args', prepared w) ->
  forward args' (prepared w) = (Ok outs, w2) ->
  run_hook env ONNXExport_init (session_calls env outs) = Ok o ->
  In (ParamArray arr) (additional_parameters o) ->
  exists w',
    export env args filename export_params graph_name save_text w =
    (Raise (AttributeError "'numpy.ndarray' object has no attribute 'array'"),
     w').
Proof.
  intros Hav Hargs Hfwd Hrun Hin.
  rewrite (export_staged _ _ _ _ _ _ _ _ _ _ Hav Hargs Hfwd).
  unfold finish. unfold bind at 1. simpl. unfold bind at 1.
  pose proof (capture_result env outs w2) as Hres.
  destruct (capture env outs w2) as [r w3]. simpl in Hres.
  rewrite Hrun in Hres. subst r.
  unfold bind at 1. unfold lift at 1.
  rewrite (additional_value_infos_array _ _ Hin). now exists w3.
Qed.

Lemma export_array_parameter_witness :
  exists w',
    export Faults.env_with_array (PyList [PyArray Scenario.x_array]) FileNone
      true "Graph" false Scenario.world =
    (Raise (AttributeError "'numpy.ndarray' object has no attribute 'array'"),
     w').
Proof.
  refine (export_array_parameter Faults.env_with_array
            (PyList [PyArray Scenario.x_array]) FileNone true "Graph" false
            Scenario.world (PyList [PyVar Scenario.x]) (OutVariable Scenario.y)
            (mk_World true (to_cpu Scenario.chain)
               [EvForward [PyVar Scenario.x]])
            (mk_ONNXExport _ _ _) Faults.c_array eq_refl eq_refl eq_refl _ _).
  - vm_compute. reflexivity.
  - vm_compute. left. reflexivity.
Defined.

(** ** The order of the captured lists *)

Lemma dict_set_keys_order {V} (k : string) (v : V) (d : list (string * V)) :
  dict_keys (dict_set k v d) =
  if dict_mem k d then dict_keys d else dict_keys d ++ [k].
Proof.
  induction d as [ | [k1 v1] d IH ]; simpl.
  - reflexivity.
  - unfold dict_mem in *. simpl.
    destruct (String.eqb k k1) eqn:E; simpl.
    + apply String.eqb_eq in E. now subst k1.
    + rewrite IH. now destruct (existsb _ d).
Qed.

(** One turn of the loop adds at most one key, at the end, and never a
    key that is there already. *)
Lemma visit_input_grows net i :
  exists suffix,
    dict_keys (snd (visit_input net i)) = dict_keys net ++ suffix /\
    (NoDup (dict_keys net) -> NoDup (dict_keys net ++ suffix)).
Proof.
  assert (Hset : forall k t,
    exists suffix,
      dict_keys (dict_set k t net) = dict_keys net ++ suffix /\
      (NoDup (dict_keys net) -> NoDup (dict_keys net ++ suffix))).
  { intros k t. rewrite dict_set_keys_order.
    destruct (dict_mem k net) eqn:E.
    - exists []. rewrite app_nil_r. auto.
    - exists [k]. split; [ reflexivity | ]. intro Hnd.
      apply NoDup_rev in Hnd. rewrite <- (rev_involutive (_ ++ [k])).
      apply NoDup_rev. rewrite rev_app_distr. simpl. constructor; [ | exact Hnd ].
      rewrite <- in_rev. intro Hin. apply dict_mem_keys in Hin. congruence. }
  unfold visit_input. destruct (get_variable_or_none i) as [var | ].
  - destruct (v_is_parameter var); simpl; [ | apply Hset ].
    exists []. rewrite app_nil_r. auto.
  - simpl. destruct (dict_mem (str (n_id i)) net) eqn:E; [ | apply Hset ].
    exists []. rewrite app_nil_r. auto.
Qed.

Lemma visit_inputs_grows net ins :
  exists suffix,
    dict_keys (snd (visit_inputs net ins)) = dict_keys net ++ suffix /\
    (NoDup (dict_keys net) -> NoDup (dict_keys net ++ suffix)).
Proof.
  revert net. induction ins as [ | i ins IH ]; intro net.
  - exists []. rewrite app_nil_r. auto.
  - rewrite visit_inputs_cons.
    destruct (visit_input_grows net i) as (s1 & H1 & N1).
    destruct (IH (snd (visit_input net i))) as (s2 & H2 & N2).
    exists (s1 ++ s2). rewrite H2, H1, app_assoc. split; [ reflexivity | ].
    intro Hnd. rewrite <- H1. apply N2. rewrite H1. now apply N1.
Qed.

Lemma append_new_grows g nodes : exists suffix, append_new g nodes = g ++ suffix.
Proof.
  revert g. induction nodes as [ | n nodes IH ]; intro g; simpl.
  - exists []. now rewrite app_nil_r.
  - destruct (in_dec NodeProto_eq_dec n g); [ apply IH | ].
    destruct (IH (g ++ [n])) as [s Hs]. exists (n :: s).
    now rewrite Hs, <- app_assoc.
Qed.

Lemma run_hook_grows env self fs o :
  run_hook env self fs = Ok o ->
  exists nodes keys,
    graph o = graph self ++ nodes /\
    dict_keys (network_inputs o) = dict_keys (network_inputs self) ++ keys /\
    (NoDup (dict_keys (network_inputs self)) ->
     NoDup (dict_keys (network_inputs o))).
Proof.
  revert self. induction fs as [ | f fs IH ]; intros self Hrun; simpl in Hrun.
  - injection Hrun as <-. exists [], []. rewrite !app_nil_r. auto.
  - destruct (backward_postprocess env self f) as [self' | e] eqn:Hstep;
      [ | discriminate ].
    simpl in Hrun. destruct (IH _ Hrun) as (n2 & k2 & Hg2 & Hk2 & Hnd2).
    apply backward_postprocess_Ok in Hstep
      as (c & nodes & _ & _ & _ & _ & Hgraph & Hnet).
    destruct (append_new_grows (graph self) nodes) as [n1 Hn1].
    destruct (visit_inputs_grows (network_inputs self) (inputs (unwrap f)))
      as (k1 & Hk1 & Hnd1).
    exists (n1 ++ n2), (k1 ++ k2).
    rewrite Hg2, Hgraph, Hn1, Hk2, Hnet, Hk1, !app_assoc.
    split; [ reflexivity | split; [ reflexivity | ] ].
    intro Hnd. rewrite <- !app_assoc, app_assoc, <- Hk1, <- Hnet, <- Hk2.
    apply Hnd2. rewrite Hnet, Hk1. now apply Hnd1.
Qed.

(** The node list and the dictionary of network inputs only grow at
    their end: what the first calls of a session have captured stays
    where it is, in the same order, whatever is captured later. *)
Theorem session_lists_append_only env self fs1 fs2 o :
  run_hook env self (fs1 ++ fs2) = Ok o ->
  exists o1 nodes keys,
    run_hook env self fs1 = Ok o1 /\
    graph o = graph o1 ++ nodes /\
    dict_keys (network_inputs o) = dict_keys (network_inputs o1) ++ keys.
Proof.
  rewrite run_hook_app.
  destruct (run_hook env self fs1) as [o1 | e]; simpl; [ | discriminate ].
  intro Hrun. destruct (run_hook_grows _ _ _ _ Hrun) as (nodes & keys & Hg & Hk & _).
  now exists o1, nodes, keys.
Qed.

Lemma session_lists_append_only_witness :
  exists o1 nodes keys,
    run_hook Scenario.env ONNXExport_init [FunctionNode Scenario.Add] = Ok o1 /\
    [ make_node "Add" ["204"; "102"] ["205"] [];
      make_node "Mul" ["101"; "103"] ["204"] [] ] = graph o1 ++ nodes /\
    ["204"; "103"] = dict_keys (network_inputs o1) ++ keys.
Proof.
  exact (session_lists_append_only Scenario.env ONNXExport_init
           [FunctionNode Scenario.Add] [FunctionNode Scenario.Mul]
           (mk_ONNXExport
              [ make_node "Add" ["204"; "102"] ["205"] [];
                make_node "Mul" ["101"; "103"] ["204"] [] ]
              []
              [ ("204", TNode Scenario.h_node); ("103", TVar Scenario.x) ])
           eq_refl).
Defined.

(** The dictionary of network inputs of a session has no key twice:
    no network input is declared twice. *)
Theorem network_inputs_keys_NoDup env fs o :
  run_hook env ONNXExport_init fs = Ok o ->
  NoDup (dict_keys (network_inputs o)).
Proof.
  intro Hrun. destruct (run_hook_grows _ _ _ _ Hrun) as (_ & _ & _ & _ & Hnd).
  apply Hnd. constructor.
Qed.

Lemma network_inputs_keys_NoDup_witness :
  exists o,
    run_hook Variants.env_two_outputs ONNXExport_init
      (session_calls Variants.env_two_outputs
         (OutTuple [Scenario.y; Variants.z])) = Ok o /\
    NoDup (dict_keys (network_inputs o)).
Proof.
  eexists. split; [ vm_compute; reflexivity | ].
  refine (network_inputs_keys_NoDup Variants.env_two_outputs
            (session_calls Variants.env_two_outputs
               (OutTuple [Scenario.y; Variants.z])) _ _).
  vm_compute. reflexivity.
Defined.

(** ** The declared inputs *)

Lemma assembled_declared_inputs env ps o more outs export_params graph_name fs :
  run_hook env ONNXExport_init fs = Ok o ->
  additional_value_infos (additional_parameters o) = Ok more ->
  declared_inputs
    (m_graph (assembled env ps o more outs export_params graph_name)) =
  map (fun p => str (v_id p)) ps ++
  map (fun p => str (param_id p)) (additional_parameters o) ++
  dict_keys (network_inputs o).
Proof.
  intros Hrun Hmore. unfold declared_inputs. simpl. rewrite !map_app.
  rewrite param_value_info_names, (additional_value_infos_names _ _ Hmore).
  rewrite tensor_value_info_names; [ now rewrite app_assoc | ].
  intros k t Hin.
  destruct (run_hook_entries _ _ _ _ _ _ Hrun Hin)
    as [[] | (f & i & _ & _ & -> & -> & _)].
  reflexivity.
Qed.

(** The declared inputs of a returned model, in order: the parameters
    of the model as [model.params()] gives them, then the additional
    parameters of the converters, then the network inputs in the order
    of their discovery. *)
Theorem export_declared_inputs env args filename export_params graph_name
    save_text w args' outs w2 m w' o :
  convert_args env args (prepared w) = (Ok args', prepared w) ->
  forward args' (prepared w) = (Ok outs, w2) ->
  export env args filename export_params graph_name save_text w = (Ok m, w') ->
  run_hook env ONNXExport_init (session_calls env outs) = Ok o ->
  declared_inputs (m_graph m) =
  map (fun p => str (v_id p)) (params (model w)) ++
  map (fun p => str (param_id p)) (additional_parameters o) ++
  dict_keys (network_inputs o).
Proof.
  intros Hargs Hfwd Hexp Hrun.
  destruct (export_Ok_staged _ _ _ _ _ _ _ _ _ _ _ _ Hargs Hfwd Hexp)
    as (o' & more & Hrun' & Hmore & ->).
  rewrite Hrun in Hrun'. injection Hrun' as <-.
  exact (assembled_declared_inputs _ _ _ _ _ _ _ _ Hrun Hmore).
Qed.

Lemma export_declared_inputs_witness :
  exists m w',
    export Scenario.env (PyList [PyArray Scenario.x_array]) FileNone true
      "Graph" false Scenario.world = (Ok m, w') /\
    declared_inputs (m_graph m) = ["101"; "102"] ++ [] ++ ["204"; "103"].
Proof.
  eexists. eexists. split; [ vm_compute; reflexivity | ].
  refine (export_declared_inputs Scenario.env
            (PyList [PyArray Scenario.x_array]) FileNone true "Graph" false
            Scenario.world (PyList [PyVar Scenario.x]) (OutVariable Scenario.y)
            (mk_World true (to_cpu Scenario.chain)
               [EvForward [PyVar Scenario.x]])
            _ _
            (mk_ONNXExport
               [ make_node "Add" ["204"; "102"] ["205"] [];
                 make_node "Mul" ["101"; "103"] ["204"] [] ]
               []
               [ ("204", TNode Scenario.h_node); ("103", TVar Scenario.x) ])
            eq_refl eq_refl _ eq_refl).
  vm_compute. reflexivity.
Defined.

Lemma run_hook_keys env self fs o k :
  run_hook env self fs = Ok o ->
  In k (dict_keys (network_inputs self)) -> In k (dict_keys (network_inputs o)).
Proof.
  intros Hrun Hk. destruct (run_hook_grows _ _ _ _ Hrun) as (_ & keys & _ & -> & _).
  apply in_app_iff. now left.
Qed.

Lemma run_hook_registers env self fs o f i :
  run_hook env self fs = Ok o ->
  In f fs -> In i (inputs (unwrap f)) -> is_Parameter (resolved i) = false ->
  In (input_name i) (dict_keys (network_inputs o)).
Proof.
  revert self. induction fs as [ | g fs IH ]; intros self Hrun Hf Hi Hp;
    [ destruct Hf | ].
  simpl in Hrun.
  destruct (backward_postprocess env self g) as [self' | e] eqn:Hstep;
    [ | discriminate ].
  simpl in Hrun. destruct Hf as [-> | Hf]; [ | now apply (IH self') ].
  apply (run_hook_keys _ _ _ _ _ Hrun).
  apply backward_postprocess_Ok in Hstep as (_ & _ & _ & _ & _ & _ & _ & Hnet).
  rewrite Hnet. now apply visit_inputs_registers.
Qed.

(** Every input of a captured function that is not a parameter is a
    declared input of the returned graph, under the name the function's
    nodes are given for it. *)
Theorem consumed_inputs_are_declared env args filename export_params
    graph_name save_text w args' outs w2 m w' f i :
  convert_args env args (prepared w) = (Ok args', prepared w) ->
  forward args' (prepared w) = (Ok outs, w2) ->
  export env args filename export_params graph_name save_text w = (Ok m, w') ->
  In f (session_calls env outs) ->
  In i (inputs (unwrap f)) ->
  is_Parameter (resolved i) = false ->
  In (input_name i) (declared_inputs (m_graph m)).
Proof.
  intros Hargs Hfwd Hexp Hf Hi Hp.
  destruct (export_Ok_staged _ _ _ _ _ _ _ _ _ _ _ _ Hargs Hfwd Hexp)
    as (o & more & Hrun & Hmore & ->).
  rewrite (assembled_declared_inputs _ _ _ _ _ _ _ _ Hrun Hmore).
  rewrite !in_app_iff. right; right.
  now apply (run_hook_registers _ _ _ _ f i Hrun).
Qed.

Lemma consumed_inputs_are_declared_witness :
  exists m w',
    export Scenario.env (PyList [PyArray Scenario.x_array]) FileNone true
      "Graph" false Scenario.world = (Ok m, w') /\
    In (input_name Scenario.h_node) (declared_inputs (m_graph m)).
Proof.
  eexists. eexists. split; [ vm_compute; reflexivity | ].
  refine (consumed_inputs_are_declared Scenario.env
            (PyList [PyArray Scenario.x_array]) FileNone true "Graph" false
            Scenario.world (PyList [PyVar Scenario.x]) (OutVariable Scenario.y)
            (mk_World true (to_cpu Scenario.chain)
               [EvForward [PyVar Scenario.x]])
            _ _ (FunctionNode Scenario.Add) Scenario.h_node
            eq_refl eq_refl _ _ _ eq_refl).
  - vm_compute. reflexivity.
  - left. reflexivity.
  - left. reflexivity.
Defined.

(** ** The emitted nodes *)

Lemma nodup_skip (n : NodeProto) xs ys :
  In n ys ->
  nodup NodeProto_eq_dec (xs ++ n :: ys) = nodup NodeProto_eq_dec (xs ++ ys).
Proof.
  intro Hn. induction xs as [ | x xs IH ]; simpl.
  - destruct (in_dec NodeProto_eq_dec n ys); [ reflexivity | contradiction ].
  - destruct (in_dec NodeProto_eq_dec x (xs ++ n :: ys)) as [H1 | H1],
             (in_dec NodeProto_eq_dec x (xs ++ ys)) as [H2 | H2].
    + exact IH.
    + exfalso. apply H2. apply in_app_iff in H1 as [H1 | [<- | H1]];
        apply in_app_iff; auto.
    + exfalso. apply H1. apply in_app_iff in H2 as [H2 | H2];
        apply in_app_iff; [ now left | right; now right ].
    + now rewrite IH.
Qed.

Lemma append_new_nodup g nodes rest :
  nodup NodeProto_eq_dec (rev (append_new g nodes ++ rest)) =
  nodup NodeProto_eq_dec (rev (g ++ nodes ++ rest)).
Proof.
  revert g. induction nodes as [ | n nodes IH ]; intro g; simpl.
  - reflexivity.
  - destruct (in_dec NodeProto_eq_dec n g) as [Hin | Hout].
    + rewrite IH. rewrite !rev_app_distr. simpl.
      rewrite !rev_app_distr, <- !app_assoc. simpl.
      rewrite (app_assoc (rev rest)), (app_assoc (rev rest) (rev nodes)).
      symmetry. apply nodup_skip. now apply -> in_rev.
    + rewrite IH. now rewrite <- app_assoc.
Qed.

Lemma run_hook_nodup env self fs o :
  run_hook env self fs = Ok o ->
  nodup NodeProto_eq_dec (rev (graph o)) =
  nodup NodeProto_eq_dec (rev (graph self ++ produced env self fs)).
Proof.
  revert self. induction fs as [ | f fs IH ]; intros self Hrun; simpl in Hrun.
  - injection Hrun as <-. simpl. now rewrite app_nil_r.
  - destruct (backward_postprocess env self f) as [self' | e] eqn:Hstep;
      [ | discriminate ].
    simpl in Hrun. rewrite (IH _ Hrun). simpl.
    pose proof (backward_postprocess_Ok _ _ _ _ Hstep)
      as (c & nodes & _ & _ & _ & Hconv & Hgraph & _).
    rewrite Hconv, Hstep, Hgraph. apply append_new_nodup.
Qed.

(** The nodes of a returned graph are the nodes the converters
    returned during the session, in the reverse of the order they were
    returned in, each node that was returned several times standing
    where its first return puts it. *)
Theorem export_nodes_reverse_production env args filename export_params
    graph_name save_text w args' outs w2 m w' :
  convert_args env args (prepared w) = (Ok args', prepared w) ->
  forward args' (prepared w) = (Ok outs, w2) ->
  export env args filename export_params graph_name save_text w = (Ok m, w') ->
  g_node (m_graph m) =
  nodup NodeProto_eq_dec
    (rev (produced env ONNXExport_init (session_calls env outs))).
Proof.
  intros Hargs Hfwd Hexp.
  destruct (export_Ok_staged _ _ _ _ _ _ _ _ _ _ _ _ Hargs Hfwd Hexp)
    as (o & more & Hrun & _ & ->).
  pose proof (run_hook_nodup _ _ _ _ Hrun) as Hn. simpl in Hn.
  simpl. rewrite <- Hn.
  symmetry. apply nodup_fixed_point. apply NoDup_rev.
  apply (run_hook_graph _ _ _ _ Hrun). constructor.
Qed.

Lemma export_nodes_reverse_production_witness :
  exists m w',
    export Variants.env_two_outputs (PyList [PyArray Scenario.x_array])
      FileNone true "Graph" false Variants.world_two_outputs = (Ok m, w') /\
    produced Variants.env_two_outputs ONNXExport_init
      (session_calls Variants.env_two_outputs
         (OutTuple [Scenario.y; Variants.z])) =
      [ make_node "Add" ["204"; "102"] ["205"] [];
        make_node "Mul" ["101"; "103"] ["204"] [];
        make_node "Mul" ["204"; "101"] ["206"] [];
        make_node "Mul" ["101"; "103"] ["204"] [] ] /\
    g_node (m_graph m) =
    nodup NodeProto_eq_dec
      (rev (produced Variants.env_two_outputs ONNXExport_init
              (session_calls Variants.env_two_outputs
                 (OutTuple [Scenario.y; Variants.z])))).
Proof.
  eexists. eexists. split; [ vm_compute; reflexivity | ].
  split; [ vm_compute; reflexivity | ].
  refine (export_nodes_reverse_production Variants.env_two_outputs
            (PyList [PyArray Scenario.x_array]) FileNone true "Graph" false
            Variants.world_two_outputs (PyList [PyVar Scenario.x])
            (OutTuple [Scenario.y; Variants.z]) _ _ _ _ _ _);
    vm_compute; reflexivity.
Defined.

(** Submitting again nodes that the list holds changes nothing. *)
Lemma append_new_present g nodes :
  (forall n, In n nodes -> In n g) -> append_new g nodes = g.
Proof.
  induction nodes as [ | n nodes IH ]; simpl; intro H.
  - reflexivity.
  - destruct (in_dec NodeProto_eq_dec n g) as [Hin | Hout].
    + apply IH. intros n' Hn'. apply H. now right.
    + exfalso. apply Hout. apply H. now left.
Qed.

(** Capturing the nodes of a function a second time leaves the node
    list as the first time left it. *)
Theorem append_new_idempotent g nodes :
  append_new (append_new g nodes) nodes = append_new g nodes.
Proof.
  apply append_new_present. intros n Hn. apply append_new_In. now right.
Qed.

(** ** A node the checker rejects *)

Lemma check_nodes_rejected env ok n rest e :
  (forall n', In n' ok -> check_node env n' = None) ->
  check_node env n = Some e ->
  check_nodes env (ok ++ n :: rest) = Raise e.
Proof.
  intros Hok Hn. induction ok as [ | n' ok IH ]; simpl.
  - now rewrite Hn.
  - rewrite (Hok n' (or_introl eq_refl)). apply IH.
    intros n'' H. apply Hok. now right.
Qed.

Lemma backward_postprocess_rejected env self f c ok n rest ps' e :
  functions_attr env ("convert_" ++ class_name (unwrap f))%string = Some c ->
  c (unwrap f) (map input_name (inputs (unwrap f)))
    (output_names_of (unwrap f)) (additional_parameters self)
    = Ok (ok ++ n :: rest, ps') ->
  (forall n', In n' ok -> check_node env n' = None) ->
  check_node env n = Some e ->
  backward_postprocess env self f = Raise e.
Proof.
  intros Hc Hcall Hok Hn. unfold backward_postprocess.
  pose proof (visit_inputs_names (network_inputs self) (inputs (unwrap f))) as Hnames.
  destruct (visit_inputs (network_inputs self) (inputs (unwrap f)))
    as [input_names net].
  simpl in Hnames. subst input_names. unfold create_node.
  rewrite Hc, Hcall. simpl.
  now rewrite (check_nodes_rejected env ok n rest e Hok Hn).
Qed.

(** When the checker rejects a node that a converter returns (the
    calls before, and the nodes before it, having passed), the export
    raises the checker's error from inside the traversal. *)
Theorem export_rejected_node env args filename export_params graph_name
    save_text w args' outs w2 pre f post o c ok n rest ps' e :
  onnx_available env = true ->
  convert_args env args (prepared w) = (Ok args', prepared w) ->
  forward args' (prepared w) = (Ok outs, w2) ->
  session_calls env outs = pre ++ f :: post ->
  run_hook env ONNXExport_init pre = Ok o ->
  functions_attr env ("convert_" ++ class_name (unwrap f))%string = Some c ->
  c (unwrap f) (map input_name (inputs (unwrap f)))
    (output_names_of (unwrap f)) (additional_parameters o)
    = Ok (ok ++ n :: rest, ps') ->
  (forall n', In n' ok -> check_node env n' = None) ->
  check_node env n = Some e ->
  exists w',
    export env args filename export_params graph_name save_text w
      = (Raise e, w').
Proof.
  intros Hav Hargs Hfwd Hsplit Hpre Hc Hcall Hok Hn.
  rewrite (export_staged _ _ _ _ _ _ _ _ _ _ Hav Hargs Hfwd).
  unfold finish. unfold bind at 1. simpl. unfold bind at 1.
  pose proof (capture_result env outs w2) as Hres.
  destruct (capture env outs w2) as [r w3]. simpl in Hres.
  rewrite Hsplit, run_hook_app, Hpre in Hres. simpl in Hres.
  rewrite (backward_postprocess_rejected _ _ _ _ _ _ _ _ _ Hc Hcall Hok Hn)
    in Hres.
  simpl in Hres. subst r. now exists w3.
Qed.

Lemma export_rejected_node_witness :
  exists w',
    export Faults.env_rejecting_Add (PyList [PyArray Scenario.x_array])
      (FilePath "model.onnx") true "Graph" false Scenario.world
      = (Raise (ForeignError "ValidationError"), w').
Proof.
  refine (export_rejected_node Faults.env_rejecting_Add
            (PyList [PyArray Scenario.x_array]) (FilePath "model.onnx") true
            "Graph" false Scenario.world
            (PyList [PyVar Scenario.x]) (OutVariable Scenario.y)
            (mk_World true (to_cpu Scenario.chain)
               [EvForward [PyVar Scenario.x]])
            [] (FunctionNode Scenario.Add) [FunctionNode Scenario.Mul]
            ONNXExport_init Scenario.convert_Add []
            (make_node "Add" ["204"; "102"] ["205"] []) [] []
            (ForeignError "ValidationError")
            eq_refl eq_refl eq_refl eq_refl eq_refl eq_refl eq_refl _ eq_refl).
  intros n' [].
Defined.


(** ** A model that returns a dict, in full *)

Lemma finish_dict env d filename (export_params : bool) graph_name save_text
    w :
  let ps := params (model w) in
  let g := make_graph [] graph_name (map param_value_info ps)
             (map output_value_info (dict_values d))
             (if export_params
              then map (fun p => convert_parameter (ParamVar p)) ps
              else []) in
  let m := mk_ModelProto g "Chainer" (chainer_version env) (IR_VERSION env) in
  finish env (OutDict d) filename export_params graph_name save_text w =
  match check_graph env g with
  | Some e => (Raise e, w)
  | None => match check_model env m with
            | Some e => (Raise e, w)
            | None => (Ok m, snd (save filename save_text m w))
            end
  end.
Proof.
  intros ps g m. unfold finish. unfold bind at 1. simpl. unfold bind at 1.
  simpl. unfold bind at 1. simpl. fold ps. rewrite !app_nil_r.
  replace (if export_params
           then map (fun p => convert_parameter (ParamVar p)) ps ++ []
           else [])
    with (if export_params
          then map (fun p => convert_parameter (ParamVar p)) ps else [])
    by (destruct export_params; [ now rewrite app_nil_r | reflexivity ]).
  fold g. unfold bind at 1.
  destruct (check_graph env g) as [e | ]; [ reflexivity | ]. simpl.
  fold m. unfold bind at 1.
  destruct (check_model env m) as [e | ]; [ reflexivity | ]. simpl.
  unfold bind at 1.
  pose proof (save_returns filename save_text m w) as Hs.
  destruct (save filename save_text m w) as [r w3]. simpl in Hs.
  now subst r.
Qed.

(** C10. When the model returns a dict, the export runs no backward
    pass and the hook is called on nothing: after the one forward
    evaluation the only effects are the writes of the returned model.
    The export returns (unless the checker raises) the graph that has
    no node, declares the parameters as inputs and declares as outputs
    the values of the dict, in the order of the dict, each under the
    name [str(id(.))] with its element type and shape. *)
Theorem export_dict_outputs env args filename (export_params : bool)
    graph_name save_text w args' d w2 :
  onnx_available env = true ->
  convert_args env args (prepared w) = (Ok args', prepared w) ->
  forward args' (prepared w) = (Ok (OutDict d), w2) ->
  let ps := params (model w) in
  let g := make_graph [] graph_name (map param_value_info ps)
             (map (fun kv : string * variable =>
                     make_tensor_value_info
                       (str (v_id (snd kv)))
                       (NP_TYPE_TO_TENSOR_TYPE (a_dtype (v_array (snd kv))))
                       (a_shape (v_array (snd kv)))) d)
             (if export_params
              then map (fun p => convert_parameter (ParamVar p)) ps
              else []) in
  let m := mk_ModelProto g "Chainer" (chainer_version env) (IR_VERSION env) in
  let run := export env args filename export_params graph_name save_text w in
  fst run =
    match check_graph env g with
    | Some e => Raise e
    | None => match check_model env m with
              | Some e => Raise e
              | None => Ok m
              end
    end /\
  filter is_backward (trace (snd run)) = filter is_backward (trace w) /\
  exists l,
    args' = PyList l /\
    trace (snd run) =
    trace w ++ EvForward l ::
      match fst run with
      | Ok m' => write_effects filename save_text m'
      | Raise _ => []
      end.
Proof.
  intros Hav Hargs Hfwd ps g m run. subst run.
  rewrite (export_staged _ _ _ _ _ _ _ _ _ _ Hav Hargs Hfwd).
  destruct (convert_args_list _ _ _ _ _ Hargs) as [l ->].
  rewrite forward_list in Hfwd. injection Hfwd as _ <-.
  rewrite finish_dict. simpl model. simpl params. fold ps.
  assert (Hg : make_graph [] graph_name (map param_value_info ps)
                 (map output_value_info (dict_values d))
                 (if export_params
                  then map (fun p => convert_parameter (ParamVar p)) ps
                  else []) = g).
  { unfold g, dict_values. now rewrite map_map. }
  rewrite Hg. fold m.
  destruct (check_graph env g) as [e | ];
    [ split; [ reflexivity | split; [ | exists l; split; reflexivity ] ] | ].
  { simpl. rewrite filter_app. simpl. apply app_nil_r. }
  destruct (check_model env m) as [e | ];
    [ split; [ reflexivity | split; [ | exists l; split; reflexivity ] ] | ].
  { simpl. rewrite filter_app. simpl. apply app_nil_r. }
  split; [ reflexivity | ]. simpl fst. simpl snd. rewrite save_trace. simpl trace.
  split.
  - rewrite !filter_app. simpl.
    assert (E : filter is_backward (write_effects filename save_text m) = []).
    { destruct filename; simpl; try reflexivity. now destruct save_text. }
    now rewrite E, !app_nil_r.
  - exists l. split; [ reflexivity | ]. now rewrite <- app_assoc.
Qed.

Lemma export_dict_outputs_witness :
  let run := export Scenario.env (PyList [PyArray Scenario.x_array])
               (FilePath "model.onnx") true "Graph" false Variants.world_dict in
  exists m,
    fst run = Ok m /\
    g_node (m_graph m) = [] /\
    g_output (m_graph m) = [make_tensor_value_info "105" 1 [2; 3]] /\
    filter is_backward (trace (snd run)) = [] /\
    trace (snd run) =
      [EvForward [PyVar Scenario.x]; EvWriteBinary "model.onnx" m].
Proof.
  pose proof (export_dict_outputs Scenario.env
                (PyList [PyArray Scenario.x_array]) (FilePath "model.onnx")
                true "Graph" false Variants.world_dict
                (PyList [PyVar Scenario.x]) [("y", Scenario.y)]
                (mk_World true (to_cpu Variants.chain_dict)
                   [EvForward [PyVar Scenario.x]])
                eq_refl eq_refl eq_refl) as (Hrun & Hback & l & Hl & Htrace).
  injection Hl as <-.
  eexists. split; [ exact Hrun | ].
  split; [ reflexivity | split; [ reflexivity | split; [ exact Hback | ] ] ].
  exact Htrace.
Defined.
